(** * prompt_toolkit.layout.controls: user interface controls

    A shallow embedding of [prompt_toolkit/layout/controls.py]: the
    [UIContent] render artifact with its line-height cache, and the
    [FormattedTextControl], [DummyControl] and [BufferControl] controls.

    Python integers are [Z]; strings are [string]; a method that mutates
    [self] returns the new object next to its result; an exception is a
    [Raise] result; the ambient [get_app()] values (render counter, focused
    control, search target) are explicit arguments. *)

From stdpp Require Import base gmap strings list.
From Stdlib Require Import Ascii ZArith QArith Lia.

Local Open Scope Z_scope.

(** ** Python values *)

(** The exceptions that the modelled code meets. [InvalidReference] is
    the model's own: a reference that the store of objects does not hold,
    which no Python program can build. *)
Inductive exn : Type :=
  | IndexError
  | AttributeError
  | InvalidReference.

Inductive result (A : Type) : Type :=
  | Ok (a : A)
  | Raise (e : exn).
Arguments Ok {A} a.
Arguments Raise {A} e.

(** [l[i]] on a Python list: a negative index counts from the end, and an
    index outside [-len(l) <= i < len(l)] raises [IndexError]. *)
Definition py_index {A : Type} (l : list A) (i : Z) : result A :=
  let n := Z.of_nat (length l) in
  let j := if i <? 0 then i + n else i in
  if (0 <=? j) && (j <? n)
  then match l !! Z.to_nat j with
       | Some x => Ok x
       | None => Raise IndexError
       end
  else Raise IndexError.

(** [needle in s] on Python strings. *)
Fixpoint contains (needle s : string) : bool :=
  String.prefix needle s ||
  match s with
  | EmptyString => false
  | String _ s' => contains needle s'
  end.

(** [len(s)]. *)
Definition len (s : string) : Z := Z.of_nat (String.length s).

(** [s.split('\n')], with the piece under construction in [acc]. *)
Fixpoint str_split (acc s : string) : list string :=
  match s with
  | EmptyString => [acc]
  | String c s' =>
      if Ascii.eqb c "010"%char
      then acc :: str_split "" s'
      else str_split (acc +:+ String c "") s'
  end.

(** [max(l)] on a list of integers that is not empty; [max] of an empty
    list raises, and no list of this file that is given to it is empty. *)
Definition py_max (l : list Z) : Z :=
  match l with
  | [] => 0
  | a :: l' => foldl Z.max a l'
  end.

(** ** screen.Point *)

Record Point : Type := mkPoint { x : Z; y : Z }.

#[global] Instance Point_eq_dec : EqDecision Point.
Proof. solve_decision. Defined.

(** ** Fragments

    A fragment is a [(style_str, text)] tuple, or a
    [(style_str, text, handler)] tuple when it carries a mouse handler.
    Handlers are named by a number; [MouseHandlers] below runs them. *)

Module Fragment.

Record t : Type := mk {
  style_str : string;
  text : string;
  handler : option nat
}.

#[global] Instance eq_dec : EqDecision t.
Proof. solve_decision. Defined.

End Fragment.

(** The two-item tuple [(style_str, text)]. *)
Definition frag (style_str text : string) : Fragment.t :=
  Fragment.mk style_str text None.

(** [tuple(item[:2])]. *)
Definition strip_handler (item : Fragment.t) : Fragment.t :=
  frag (Fragment.style_str item) (Fragment.text item).

(** What a control or a line prefix may give as text: a plain string or a
    list of fragments. *)
Inductive AnyFormattedText : Type :=
  | PlainText (s : string)
  | FragmentList (l : list Fragment.t).

(** The helpers imported from [prompt_toolkit.utils] and
    [prompt_toolkit.formatted_text]; their code is not part of this file,
    so the controls are parametrised over them. *)
Class TextUtils : Type := {
  get_cwidth : string -> Z;
  fragment_list_to_text : list Fragment.t -> string;
  to_formatted_text : AnyFormattedText -> string -> list Fragment.t;
  split_lines : list Fragment.t -> list (list Fragment.t)
}.

(** The type of [Window.get_line_prefix]: [(width, lineno, is_continuation)]
    to the prefix text. *)
Definition LinePrefix : Type := Z -> Z -> bool -> AnyFormattedText.

(** ** UIContent *)

Module UIContent.

Record t : Type := mk {
  get_line : Z -> result (list Fragment.t);
  line_count : Z;
  cursor_position : Point;
  menu_position : option Point;
  show_cursor : bool;
  (* Cache for line heights: (render_counter, lineno, width) -> height. *)
  _line_heights : gmap (Z * Z * Z) Z
}.

(** [UIContent.__init__] *)
Definition __init__ (get_line : Z -> result (list Fragment.t)) (line_count : Z)
    (cursor_position : option Point) (menu_position : option Point)
    (show_cursor : bool) : t :=
  {| get_line := get_line;
     line_count := line_count;
     cursor_position := default (mkPoint 0 0) cursor_position;
     menu_position := menu_position;
     show_cursor := show_cursor;
     _line_heights := ∅ |}.

Definition set_line_heights (self : t) (m : gmap (Z * Z * Z) Z) : t :=
  {| get_line := get_line self;
     line_count := line_count self;
     cursor_position := cursor_position self;
     menu_position := menu_position self;
     show_cursor := show_cursor self;
     _line_heights := m |}.

Definition set_menu_position (self : t) (p : option Point) : t :=
  {| get_line := get_line self;
     line_count := line_count self;
     cursor_position := cursor_position self;
     menu_position := p;
     show_cursor := show_cursor self;
     _line_heights := _line_heights self |}.

(** [UIContent.__getitem__] *)
Definition __getitem__ (self : t) (lineno : Z) : result (list Fragment.t) :=
  if lineno <? line_count self
  then get_line self lineno
  else Raise IndexError.

(** The height returned for a line that cannot be laid out: [10 ** 8]. *)
Definition very_big : Z := 10 ^ 8.

Section methods.
Context `{TextUtils}.

(** The [while text_width > width] loop of [get_height_for_line]. The
    loop has no bound in the source; [fuel] counts the tests of its
    condition and [None] means that the fuel ran out. *)
Fixpoint wrap_loop (fuel : nat) (get_line_prefix : LinePrefix)
    (lineno width height text_width : Z) : option Z :=
  match fuel with
  | O => None
  | S fuel' =>
      if text_width >? width then
        let height := height + 1 in
        let text_width := text_width - width in
        let prefix_text := fragment_list_to_text
          (to_formatted_text (get_line_prefix width lineno true) "") in
        let prefix_width := get_cwidth prefix_text in
        if prefix_width >? width then (* Prefix doesn't fit. *)
          Some very_big
        else
          wrap_loop fuel' get_line_prefix lineno width height
                    (text_width + prefix_width)
      else Some height
  end.

(** [lambda *a: []], used when [get_line_prefix is None]. *)
Definition no_prefix : LinePrefix := fun _ _ _ => FragmentList [].

(** [UIContent.get_height_for_line]; [render_counter] is
    [get_app().render_counter]. *)
Definition get_height_for_line (fuel : nat) (render_counter : Z) (self : t)
    (lineno width : Z) (get_line_prefix : option LinePrefix)
    : option (result Z * t) :=
  let get_line_prefix := default no_prefix get_line_prefix in
  let key := (render_counter, lineno, width) in
  match _line_heights self !! key with
  | Some height => Some (Ok height, self)
  | None =>
      if width =? 0 then
        Some (Ok very_big,
              set_line_heights self (<[key := very_big]> (_line_heights self)))
      else
        match get_line self lineno with
        | Raise e => Some (Raise e, self)
        | Ok fragments =>
            let text := fragment_list_to_text fragments in
            let text_width := get_cwidth text in
            let prefix_width := get_cwidth (fragment_list_to_text
              (to_formatted_text (get_line_prefix width lineno false) "")) in
            let text_width := text_width + prefix_width in
            match wrap_loop fuel get_line_prefix lineno width 1 text_width with
            | None => None
            | Some height =>
                Some (Ok height,
                      set_line_heights self
                        (<[key := height]> (_line_heights self)))
            end
        end
  end.

(** [UIContent.get_height_for_text]; [divmod] raises
    [ZeroDivisionError] exactly when [width] is zero. *)
Definition get_height_for_text (text : string) (width : Z) : Z :=
  let line_width := get_cwidth text in
  if width =? 0 then very_big
  else
    let quotient := line_width / width in
    let remainder := line_width mod width in
    let quotient := if remainder =? 0 then quotient else quotient + 1 in
    Z.max 1 quotient.

End methods.

End UIContent.

(** ** Collaborators of the controls *)

(** [mouse_events.MouseEventType] *)
Inductive MouseEventType : Type :=
  | MOUSE_UP
  | MOUSE_DOWN
  | SCROLL_UP
  | SCROLL_DOWN.

Record MouseEvent : Type := mkMouseEvent {
  position : Point;
  event_type : MouseEventType
}.

(** What a mouse handler returns: [None] when it handled the event,
    [NotImplemented] when it did not. *)
Inductive HandlerResult : Type :=
  | Handled
  | NotImplemented.

(** Running the handler carried by a fragment. *)
Class MouseHandlers : Type := {
  call_handler : nat -> MouseEvent -> result HandlerResult
}.

(** [selection.SelectionType] *)
Inductive SelectionType : Type :=
  | CHARACTERS
  | LINES
  | BLOCK.

Record SelectionState : Type := mkSelectionState {
  original_cursor_position : Z;
  type : SelectionType
}.

Inductive SearchDirection : Type :=
  | FORWARD
  | BACKWARD.

Module SearchState.

Record t : Type := mk {
  text : string;
  direction : SearchDirection;
  ignore_case : bool
}.

(** Modelled from the spec: the constructor [SearchState()] of
    [prompt_toolkit.search], called without arguments, gives the default
    state: empty text, forward direction, case-sensitive. *)
Definition __init__ : t :=
  {| text := ""; direction := FORWARD; ignore_case := false |}.

End SearchState.

(** [SearchState] objects are shared by reference between a search field
    and the controls it searches, so they live in a store of objects. *)
Abbreviation ref := nat (only parsing).
Abbreviation store := (gmap nat SearchState.t) (only parsing).

(** Creating an object: a reference that the store does not hold yet. *)
Definition new_object (v : SearchState.t) (st : store) : ref * store :=
  let r := fresh (dom st) in (r, <[r := v]> st).

Module Document.

Record t : Type := mk {
  text : string;
  cursor_position : Z;
  selection : option SelectionState
}.

End Document.

Record CompletionState : Type := mkCompletionState {
  original_document : Document.t
}.

Module Buffer.

Record t : Type := mk {
  text : string;
  cursor_position : Z;
  selection_state : option SelectionState;
  complete_state : option CompletionState
}.

(** Modelled from the spec: [Buffer.document], the snapshot of the
    buffer's text, cursor offset and selection. *)
Definition document (b : t) : Document.t :=
  Document.mk (text b) (cursor_position b) (selection_state b).

(** Modelled from the spec: [Buffer.exit_selection] clears any existing
    selection. *)
Definition exit_selection (b : t) : t :=
  mk (text b) (cursor_position b) None (complete_state b).

(** Modelled from the spec: [Buffer.start_selection] starts a selection
    of the given type at the current cursor offset. *)
Definition start_selection (selection_type : SelectionType) (b : t) : t :=
  mk (text b) (cursor_position b)
     (Some (mkSelectionState (cursor_position b) selection_type))
     (complete_state b).

(** Modelled from the spec: assigning [Buffer.cursor_position] sets the
    cursor to that offset. *)
Definition set_cursor_position (value : Z) (b : t) : t :=
  mk (text b) value (selection_state b) (complete_state b).

(** The two ends of the selection, the smaller first: the offset where
    the selection was started and the cursor. *)
Definition selection_range (b : t) : option (Z * Z) :=
  match selection_state b with
  | Some s =>
      Some (Z.min (original_cursor_position s) (cursor_position b),
            Z.max (original_cursor_position s) (cursor_position b))
  | None => None
  end.

End Buffer.

(** The operations of [Document] and [Buffer] that the controls call and
    whose code is not part of this file. *)
Class DocumentOps : Type := {
  cursor_position_row : Document.t -> Z;
  cursor_position_col : Document.t -> Z;
  line_count : Document.t -> Z;
  translate_index_to_position : Document.t -> Z -> Z * Z;
  translate_row_col_to_index : Document.t -> Z -> Z -> Z;
  find_boundaries_of_current_word : Document.t -> Z * Z;
  document_for_search : Buffer.t -> SearchState.t -> Document.t
}.

(** ** cache.SimpleCache *)

Module SimpleCache.

Section cache.
Context {K V : Type} `{EqDecision K}.

(** The entries, oldest first. *)
Record t : Type := mk {
  data : list (K * V);
  maxsize : nat
}.

Definition __init__ (maxsize : nat) : t := mk [] maxsize.

Fixpoint find (key : K) (d : list (K * V)) : option V :=
  match d with
  | [] => None
  | (k, v) :: d' => if decide (k = key) then Some v else find key d'
  end.

(** Modelled from the spec: [SimpleCache.get(key, getter_func)], a
    bounded cache: a stored value is returned; otherwise the value
    is computed and stored, and the oldest entry is dropped when the
    size is exceeded. *)
Definition get (key : K) (getter_func : unit -> V) (c : t) : V * t :=
  match find key (data c) with
  | Some v => (v, c)
  | None =>
      let value := getter_func tt in
      let d := data c ++ [(key, value)] in
      let d := if (maxsize c <? length d)%nat then tail d else d in
      (value, mk d (maxsize c))
  end.

End cache.

Arguments t K V : clear implicits.

End SimpleCache.

(** ** DummyControl *)

Module DummyControl.

(** [DummyControl.create_content] *)
Definition create_content (width : Z) (height : option Z) : UIContent.t :=
  let get_line := fun i : Z => Ok ([] : list Fragment.t) in
  UIContent.__init__ get_line (100 ^ 100) None None true.

Definition is_focusable : bool := false.

End DummyControl.

(** ** FormattedTextControl *)

Module FormattedTextControl.

(** The key of the content cache:
    [(tuple(fragments_with_mouse_handlers), width, cursor_position)]. *)
Abbreviation content_key := (list Fragment.t * Z * option Point)%type
  (only parsing).

Record t : Type := mk {
  text : AnyFormattedText;
  style : string;
  focusable : bool;
  show_cursor : bool;
  modal : bool;
  get_cursor_position : option (unit -> option Point);
  _content_cache : SimpleCache.t content_key UIContent.t;
  _fragment_cache : SimpleCache.t Z (list Fragment.t);
  (* Render info for the mouse support. *)
  _fragments : option (list Fragment.t)
}.

(** [FormattedTextControl.__init__] *)
Definition __init__ (text : AnyFormattedText) (style : string)
    (focusable show_cursor modal : bool)
    (get_cursor_position : option (unit -> option Point)) : t :=
  {| text := text; style := style; focusable := focusable;
     show_cursor := show_cursor; modal := modal;
     get_cursor_position := get_cursor_position;
     _content_cache := SimpleCache.__init__ 18;
     _fragment_cache := SimpleCache.__init__ 1;
     _fragments := None |}.

Definition set_caches (self : t)
    (content_cache : SimpleCache.t content_key UIContent.t)
    (fragment_cache : SimpleCache.t Z (list Fragment.t))
    (fragments : option (list Fragment.t)) : t :=
  {| text := text self; style := style self; focusable := focusable self;
     show_cursor := show_cursor self; modal := modal self;
     get_cursor_position := get_cursor_position self;
     _content_cache := content_cache;
     _fragment_cache := fragment_cache;
     _fragments := fragments |}.

(** [FormattedTextControl.reset] *)
Definition reset (self : t) : t :=
  set_caches self (_content_cache self) (_fragment_cache self) None.

(** The inner loop of the local function [get_cursor_position] of
    [create_content]: the column of the first fragment of [line] whose
    style holds [fragment], counting from [x]. *)
Fixpoint scan_line (fragment : string) (line : list Fragment.t) (x : Z)
    : option Z :=
  match line with
  | [] => None
  | item :: rest =>
      if contains fragment (Fragment.style_str item) then Some x
      else scan_line fragment rest (x + len (Fragment.text item))
  end.

(** The outer loop, [for y, line in enumerate(fragment_lines)], from
    row [y] on. *)
Fixpoint scan_lines (fragment : string) (fragment_lines : list (list Fragment.t))
    (y : Z) : option Point :=
  match fragment_lines with
  | [] => None
  | line :: rest =>
      match scan_line fragment line 0 with
      | Some x => Some (mkPoint x y)
      | None => scan_lines fragment rest (y + 1)
      end
  end.

Section methods.
Context `{TextUtils} `{MouseHandlers}.

(** [FormattedTextControl._get_formatted_text_cached] *)
Definition _get_formatted_text_cached (render_counter : Z) (self : t)
    : list Fragment.t * t :=
  let '(fragments, cache) :=
    SimpleCache.get render_counter
      (fun _ => to_formatted_text (text self) (style self))
      (_fragment_cache self) in
  (fragments, set_caches self (_content_cache self) cache (_fragments self)).

(** [FormattedTextControl.create_content] *)
Definition create_content (render_counter : Z) (self : t)
    (width : Z) (height : option Z) : UIContent.t * t :=
  (* Get fragments *)
  let '(fragments_with_mouse_handlers, self) :=
    _get_formatted_text_cached render_counter self in
  let fragment_lines_with_mouse_handlers :=
    split_lines fragments_with_mouse_handlers in
  (* Strip mouse handlers from fragments. *)
  let fragment_lines :=
    map (map strip_handler) fragment_lines_with_mouse_handlers in
  (* Keep track of the fragments with mouse handler. *)
  let self := set_caches self (_content_cache self) (_fragment_cache self)
                         (Some fragments_with_mouse_handlers) in
  let get_cursor_position_local :=
    fun fragment : string => scan_lines fragment fragment_lines 0 in
  let get_menu_position :=
    fun _ : unit => get_cursor_position_local "[SetMenuPosition]" in
  let cursor_position :=
    match get_cursor_position self with
    | Some f => f tt
    | None => get_cursor_position_local "[SetCursorPosition]"
    end in
  (* Create content, or take it from the cache. *)
  let key := (fragments_with_mouse_handlers, width, cursor_position) in
  let get_content := fun _ : unit =>
    UIContent.__init__ (fun i => py_index fragment_lines i)
      (Z.of_nat (length fragment_lines))
      cursor_position (get_menu_position tt) (show_cursor self) in
  let '(content, cache) :=
    SimpleCache.get key get_content (_content_cache self) in
  (content, set_caches self cache (_fragment_cache self) (_fragments self)).

(** [FormattedTextControl.preferred_width] *)
Definition preferred_width (render_counter : Z) (self : t)
    (max_available_width : Z) : Z * t :=
  let '(fragments, self) := _get_formatted_text_cached render_counter self in
  let text := fragment_list_to_text fragments in
  let line_lengths := map get_cwidth (str_split "" text) in
  (py_max line_lengths, self).

(** [FormattedTextControl.preferred_height] *)
Definition preferred_height (render_counter : Z) (self : t)
    (width max_available_height : Z) (wrap_lines : bool)
    (get_line_prefix : option LinePrefix) : Z * t :=
  let '(content, self) := create_content render_counter self width None in
  (UIContent.line_count content, self).

(** The [for item in fragments] loop of [mouse_handler]: [Some r] when
    a handler was found and returned [r], [None] when the loop ended
    or was left by [break]. *)
Fixpoint find_handler (fragments : list Fragment.t) (count xpos : Z)
    (mouse_event : MouseEvent) : option (result HandlerResult) :=
  match fragments with
  | [] => None
  | item :: rest =>
      let count := count + len (Fragment.text item) in
      if count >=? xpos then
        match Fragment.handler item with
        | Some h => Some (call_handler h mouse_event)
        | None => None
        end
      else find_handler rest count xpos mouse_event
  end.

(** [FormattedTextControl.mouse_handler] *)
Definition mouse_handler (self : t) (mouse_event : MouseEvent)
    : result HandlerResult :=
  match _fragments self with
  | Some ((_ :: _) as fragments) =>
      (* Read the generator. *)
      let fragments_for_line := split_lines fragments in
      match py_index fragments_for_line (y (position mouse_event)) with
      | Raise IndexError => Ok NotImplemented
      | Raise e => Raise e
      | Ok fragments =>
          let xpos := x (position mouse_event) in
          match find_handler fragments 0 xpos mouse_event with
          | Some r => r
          | None => Ok NotImplemented
          end
      end
  | _ => Ok NotImplemented
  end.

Definition is_modal (self : t) : bool := modal self.

Definition is_focusable (self : t) : bool := focusable self.

End methods.

End FormattedTextControl.

(** ** BufferControl *)

(** Lexers and input processors are objects of other modules; they are
    named here, and [Pipeline] below gives what they compute. *)
Inductive Lexer : Type :=
  | SimpleLexer
  | CustomLexer (n : nat).

Inductive Processor : Type :=
  | HighlightSearchProcessor
  | HighlightIncrementalSearchProcessor
  | HighlightSelectionProcessor
  | DisplayMultipleCursors
  | CustomProcessor (n : nat).

Record _ProcessedLine : Type := mk_ProcessedLine {
  fragments : list Fragment.t;
  source_to_display : Z -> Z;
  display_to_source : Z -> Z
}.

(** [processors.Transformation] *)
Module Transformation.

Record t : Type := mk {
  fragments : list Fragment.t;
  source_to_display : Z -> Z;
  display_to_source : Z -> Z
}.

End Transformation.

(** What [get_app().layout] tells a control: which control has the focus
    and which one is being searched. Controls are compared by identity,
    so each carries a number. *)
Record Layout : Type := mkLayout {
  current_control : nat;
  search_target_buffer_control : nat
}.

(** The part of a [SearchBufferControl] that a [BufferControl] reads: its
    buffer and the reference to its [SearchState]. *)
Module SearchBufferControl.

Record t : Type := mk {
  buffer : Buffer.t;
  searcher_search_state : ref
}.

End SearchBufferControl.

Module BufferControl.

Record t : Type := mk {
  ident : nat;
  buffer : Buffer.t;
  input_processors : option (list Processor);
  include_default_input_processors : bool;
  default_input_processors : list Processor;
  preview_search : bool;
  focusable : bool;
  focus_on_click : bool;
  menu_position : option (unit -> option Z);
  lexer : Lexer;
  (* None, an instance, or a callable that returns None or an instance. *)
  _search_buffer_control :
    option (SearchBufferControl.t + (unit -> option SearchBufferControl.t));
  (* Cache for the lexer. *)
  _fragment_cache : SimpleCache.t (string * Z) (Z -> list Fragment.t);
  _last_click_timestamp : option Q;
  _last_get_processed_line : option (Z -> _ProcessedLine)
}.

(** [BufferControl.__init__]; [ident] is the identity of the new object
    and [buffer] the given buffer or a new empty one. *)
Definition __init__ (ident : nat) (buffer : option Buffer.t)
    (input_processors : option (list Processor))
    (include_default_input_processors : bool) (lexer : option Lexer)
    (preview_search focusable : bool)
    (search_buffer_control :
       option (SearchBufferControl.t + (unit -> option SearchBufferControl.t)))
    (menu_position : option (unit -> option Z)) (focus_on_click : bool) : t :=
  {| ident := ident;
     buffer := default (Buffer.mk "" 0 None None) buffer;
     input_processors := input_processors;
     include_default_input_processors := include_default_input_processors;
     default_input_processors :=
       [HighlightSearchProcessor; HighlightIncrementalSearchProcessor;
        HighlightSelectionProcessor; DisplayMultipleCursors];
     preview_search := preview_search;
     focusable := focusable;
     focus_on_click := focus_on_click;
     menu_position := menu_position;
     lexer := default SimpleLexer lexer;
     _search_buffer_control := search_buffer_control;
     _fragment_cache := SimpleCache.__init__ 8;
     _last_click_timestamp := None;
     _last_get_processed_line := None |}.

Definition set_buffer (self : t) (b : Buffer.t) : t :=
  mk (ident self) b (input_processors self)
     (include_default_input_processors self) (default_input_processors self)
     (preview_search self) (focusable self) (focus_on_click self)
     (menu_position self) (lexer self) (_search_buffer_control self)
     (_fragment_cache self) (_last_click_timestamp self)
     (_last_get_processed_line self).

Definition set_fragment_cache (self : t)
    (c : SimpleCache.t (string * Z) (Z -> list Fragment.t)) : t :=
  mk (ident self) (buffer self) (input_processors self)
     (include_default_input_processors self) (default_input_processors self)
     (preview_search self) (focusable self) (focus_on_click self)
     (menu_position self) (lexer self) (_search_buffer_control self)
     c (_last_click_timestamp self) (_last_get_processed_line self).

Definition set_last_click_timestamp (self : t) (ts : option Q) : t :=
  mk (ident self) (buffer self) (input_processors self)
     (include_default_input_processors self) (default_input_processors self)
     (preview_search self) (focusable self) (focus_on_click self)
     (menu_position self) (lexer self) (_search_buffer_control self)
     (_fragment_cache self) ts (_last_get_processed_line self).

Definition set_last_get_processed_line (self : t)
    (f : option (Z -> _ProcessedLine)) : t :=
  mk (ident self) (buffer self) (input_processors self)
     (include_default_input_processors self) (default_input_processors self)
     (preview_search self) (focusable self) (focus_on_click self)
     (menu_position self) (lexer self) (_search_buffer_control self)
     (_fragment_cache self) (_last_click_timestamp self) f.

(** [processors.TransformationInput] *)
Record TransformationInput : Type := mkTransformationInput {
  buffer_control : t;
  document : Document.t;
  lineno : Z;
  ti_source_to_display : Z -> Z;
  ti_fragments : list Fragment.t;
  width : Z;
  height : option Z
}.

(** What the lexer and the merged input processors compute. *)
Class Pipeline : Type := {
  lex_document : Lexer -> Document.t -> Z -> list Fragment.t;
  invalidation_hash : Lexer -> Z;
  merge_processors : list Processor -> TransformationInput -> Transformation.t
}.

(** [BufferControl.search_buffer_control] *)
Definition search_buffer_control (self : t) : option SearchBufferControl.t :=
  match _search_buffer_control self with
  | Some (inr f) => f tt
  | Some (inl c) => Some c
  | None => None
  end.

(** [BufferControl.search_buffer] *)
Definition search_buffer (self : t) : option Buffer.t :=
  match search_buffer_control self with
  | Some control => Some (SearchBufferControl.buffer control)
  | None => None
  end.

(** [BufferControl.search_state]: the reference to the returned
    [SearchState] object, and the store after the access. *)
Definition search_state (self : t) (st : store) : ref * store :=
  match search_buffer_control self with
  | Some c => (SearchBufferControl.searcher_search_state c, st)
  | None => new_object SearchState.__init__ st
  end.

Definition is_focusable (self : t) : bool := focusable self.

(** [time.time() - last < .3]. On timestamps of the present epoch the
    float subtraction is exact and no difference of two of them lies
    between the float [.3] and three tenths, so rationals decide the
    same. *)
Definition within_300ms (now last : Q) : bool :=
  negb (Qle_bool (3 # 10) (now - last)).

(** The truth value of a float: zero is false. *)
Definition float_truthy (v : Q) : bool := negb (Qeq_bool v 0).

(** [self._last_click_timestamp and
     time.time() - self._last_click_timestamp < .3] *)
Definition is_double_click (last_click_timestamp : option Q) (now : Q)
    : bool :=
  match last_click_timestamp with
  | Some last => float_truthy last && within_300ms now last
  | None => false
  end.

Section methods.
Context `{DocumentOps} `{Pipeline}.

(** [BufferControl._get_formatted_text_for_line_func] *)
Definition _get_formatted_text_for_line_func (self : t)
    (document : Document.t) : (Z -> list Fragment.t) * t :=
  let get_formatted_text_for_line :=
    fun _ : unit => lex_document (lexer self) document in
  let key := (Document.text document, invalidation_hash (lexer self)) in
  let '(f, cache) :=
    SimpleCache.get key get_formatted_text_for_line (_fragment_cache self) in
  (f, set_fragment_cache self cache).

(** The local function [transform] of
    [_create_get_processed_line_func]. *)
Definition transform (self : t) (document : Document.t) (width : Z)
    (height : option Z) (lineno : Z) (fragments : list Fragment.t)
    : _ProcessedLine :=
  (* Merge all input processors together. *)
  let input_processors := default [] (input_processors self) in
  let input_processors :=
    if include_default_input_processors self
    then default_input_processors self ++ input_processors
    else input_processors in
  (* Get cursor position at this line. *)
  let cursor_column :=
    if cursor_position_row document =? lineno
    then Some (cursor_position_col document) else None in
  let source_to_display := fun i : Z => i in
  let transformation :=
    merge_processors input_processors
      (mkTransformationInput self document lineno source_to_display
         fragments width height) in
  let cursor_column :=
    match cursor_column with
    | Some c =>
        if c =? 0 then Some c
        else Some (Transformation.source_to_display transformation c)
    | None => None
    end in
  mk_ProcessedLine
    (Transformation.fragments transformation)
    (Transformation.source_to_display transformation)
    (Transformation.display_to_source transformation).

(** [BufferControl._create_get_processed_line_func]. The dictionary
    [cache] of [create_func] stores what [transform] returned for a
    line; [transform] is a function of the line here, so the stored
    and the recomputed line are the same. The processors are given
    the control as it is when the function is created. *)
Definition _create_get_processed_line_func (self : t)
    (document : Document.t) (width : Z) (height : option Z)
    : (Z -> _ProcessedLine) * t :=
  let '(get_line, self') := _get_formatted_text_for_line_func self document in
  let get_processed_line :=
    fun i : Z => transform self document width height i (get_line i) in
  (get_processed_line, self').

(** [BufferControl.create_content] from the choice of the document
    on. *)
Definition create_content_of (layout : Layout) (self : t)
    (document : Document.t) (width : Z) (height : option Z)
    : UIContent.t * t :=
  let buffer := buffer self in
  let '(get_processed_line, self) :=
    _create_get_processed_line_func self document width height in
  let self := set_last_get_processed_line self (Some get_processed_line) in
  let translate_rowcol := fun row col : Z =>
    mkPoint (source_to_display (get_processed_line row) col) row in
  let get_line := fun i : Z =>
    let fragments := fragments (get_processed_line i) in
    (* Add a space at the end, because that is a possible cursor
       position. *)
    let fragments := fragments ++ [frag "" " "] in
    Ok fragments in
  let content :=
    UIContent.__init__ get_line (line_count document)
      (Some (translate_rowcol (cursor_position_row document)
                              (cursor_position_col document)))
      None true in
  let content :=
    if (current_control layout =? ident self)%nat then
      let menu_position :=
        match menu_position self with
        | Some f => f tt
        | None => None
        end in
      match menu_position with
      | Some menu_position =>
          let '(menu_row, menu_col) :=
            translate_index_to_position (Buffer.document buffer)
                                        menu_position in
          UIContent.set_menu_position content
            (Some (translate_rowcol menu_row menu_col))
      | None =>
          match Buffer.complete_state buffer with
          | Some complete_state =>
              let '(menu_row, menu_col) :=
                translate_index_to_position (Buffer.document buffer)
                  (Z.min (Buffer.cursor_position buffer)
                         (Document.cursor_position
                            (original_document complete_state))) in
              UIContent.set_menu_position content
                (Some (translate_rowcol menu_row menu_col))
          | None => UIContent.set_menu_position content None
          end
      end
    else content in
  (content, self).

(** The test [preview_now] of [create_content]. *)
Definition preview_now (layout : Layout) (self : t) (preview_search_arg : bool)
    : bool :=
  preview_search_arg ||
  (preview_search self &&
   match search_buffer_control self with
   | Some search_control =>
       negb (String.eqb (Buffer.text (SearchBufferControl.buffer search_control)) "")
       && (search_target_buffer_control layout =? ident self)%nat
   | None => false
   end).

(** [BufferControl.create_content] *)
Definition create_content (layout : Layout) (st : store) (self : t)
    (width : Z) (height : option Z) (preview_search_arg : bool)
    : result UIContent.t * t * store :=
  let buffer := buffer self in
  let search_control := search_buffer_control self in
  if preview_now layout self preview_search_arg then
    let '(ss, st) := search_state self st in
    match search_control with
    | None => (Raise AttributeError, self, st)
    | Some search_control =>
        match st !! ss with
        | None => (Raise InvalidReference, self, st)
        | Some ss =>
            let document :=
              document_for_search buffer
                (SearchState.mk
                   (Buffer.text (SearchBufferControl.buffer search_control))
                   (SearchState.direction ss)
                   (SearchState.ignore_case ss)) in
            let '(content, self) :=
              create_content_of layout self document width height in
            (Ok content, self, st)
        end
    end
  else
    let document := Buffer.document buffer in
    let '(content, self) :=
      create_content_of layout self document width height in
    (Ok content, self, st).

(** The offset under the mouse: the column is taken back through
    [display_to_source] of the processed line of the row, and row
    and column are converted to an offset of the document. *)
Definition mouse_index (last_get_processed_line : Z -> _ProcessedLine)
    (buffer : Buffer.t) (position : Point) : Z :=
  let processed_line := last_get_processed_line (y position) in
  let xpos := display_to_source processed_line (x position) in
  translate_row_col_to_index (Buffer.document buffer) (y position) xpos.

(** The statements of [mouse_handler] under
    [if abs(buffer.cursor_position - index) > 1]. *)
Definition select_to (index : Z) (buffer : Buffer.t) : Buffer.t :=
  let buffer := Buffer.start_selection CHARACTERS buffer in
  Buffer.set_cursor_position index buffer.

(** The statements of [mouse_handler] under [if double_click]. *)
Definition select_word (buffer : Buffer.t) : Buffer.t :=
  let '(start, end_) :=
    find_boundaries_of_current_word (Buffer.document buffer) in
  let buffer :=
    Buffer.set_cursor_position (Buffer.cursor_position buffer + start)
                               buffer in
  let buffer := Buffer.start_selection CHARACTERS buffer in
  Buffer.set_cursor_position
    (Buffer.cursor_position buffer + (end_ - start)) buffer.

(** [BufferControl.mouse_handler]; [time_check] and [time_store] are
    what the two calls of [time.time()] return. *)
Definition mouse_handler (layout : Layout) (time_check time_store : Q)
    (self : t) (mouse_event : MouseEvent) : HandlerResult * t * Layout :=
  let buffer := buffer self in
  let position := position mouse_event in
  (* Focus buffer when clicked. *)
  if (current_control layout =? ident self)%nat then
    match _last_get_processed_line self with
    | Some last_get_processed_line =>
        (* Translate coordinates back to the cursor position of the
           original input. *)
        let index := mouse_index last_get_processed_line buffer position in
        match event_type mouse_event with
        | MOUSE_DOWN =>
            (* Set the cursor position. *)
            let buffer := Buffer.exit_selection buffer in
            let buffer := Buffer.set_cursor_position index buffer in
            (Handled, set_buffer self buffer, layout)
        | MOUSE_UP =>
            (* When the cursor was moved to another place, select the
               text. *)
            let buffer :=
              if Z.abs (Buffer.cursor_position buffer - index) >? 1
              then select_to index buffer
              else buffer in
            (* Select word around cursor on double click. *)
            let double_click :=
              is_double_click (_last_click_timestamp self) time_check in
            let self := set_last_click_timestamp self (Some time_store) in
            let buffer :=
              if double_click then select_word buffer else buffer in
            (Handled, set_buffer self buffer, layout)
        | _ =>
            (* Don't handle scroll events here. *)
            (NotImplemented, self, layout)
        end
    | None =>
        (* No statement is left to run: the function ends, which
           returns None. *)
        (Handled, self, layout)
    end
  (* Not focused, but focusing on click events. *)
  else
    match focus_on_click self, event_type mouse_event with
    | true, MOUSE_UP =>
        (Handled, self,
         mkLayout (ident self) (search_target_buffer_control layout))
    | _, _ => (NotImplemented, self, layout)
    end.

End methods.

Section height.
Context `{TextUtils} `{DocumentOps} `{Pipeline}.

(** The [for i in range(content.line_count)] loop of [preferred_height],
    with [n] lines left from line [i] on; [None] when a height does not
    come back. *)
Fixpoint sum_line_heights (fuel n : nat) (render_counter : Z)
    (content : UIContent.t) (i width height max_available_height : Z)
    (get_line_prefix : option LinePrefix) : option (result Z) :=
  match n with
  | O => Some (Ok height)
  | S n' =>
      match UIContent.get_height_for_line fuel render_counter content i width
              get_line_prefix with
      | None => None
      | Some (Raise e, _) => Some (Raise e)
      | Some (Ok h, content) =>
          let height := height + h in
          if height >=? max_available_height then Some (Ok max_available_height)
          else sum_line_heights fuel n' render_counter content (i + 1) width
                 height max_available_height get_line_prefix
      end
  end.

(** [BufferControl.preferred_width] *)
Definition preferred_width (self : t) (max_available_width : Z) : option Z :=
  None.

(** [BufferControl.preferred_height]; [fuel] bounds the loop of every
    call of [get_height_for_line]. *)
Definition preferred_height (fuel : nat) (render_counter : Z)
    (layout : Layout) (st : store) (self : t)
    (width max_available_height : Z) (wrap_lines : bool)
    (get_line_prefix : option LinePrefix) : option (result Z * t * store) :=
  (* Calculate the content height, if it was drawn on a screen with the
     given width. *)
  let height := 0 in
  match create_content layout st self width None false with
  | (Raise e, self, st) => Some (Raise e, self, st)
  | (Ok content, self, st) =>
      (* When line wrapping is off, the height should be equal to the
         amount of lines. *)
      if negb wrap_lines then Some (Ok (UIContent.line_count content), self, st)
      (* When the number of lines exceeds the max_available_height, just
         return max_available_height. *)
      else if UIContent.line_count content >=? max_available_height
      then Some (Ok max_available_height, self, st)
      else
        match sum_line_heights fuel (Z.to_nat (UIContent.line_count content))
                render_counter content 0 width height max_available_height
                get_line_prefix with
        | None => None
        | Some r => Some (r, self, st)
        end
  end.

End height.

End BufferControl.

(** ** Reference collaborators

    The collaborator classes for plain ASCII text, on which the controls
    can be run. *)

Module Reference.

Definition newline : ascii := "010"%char.

(** [s.split('\n')], with the line under construction in [acc]. *)
Fixpoint split_newline (acc : string) (s : string) : list string :=
  match s with
  | EmptyString => [acc]
  | String c s' =>
      if Ascii.eqb c newline
      then acc :: split_newline "" s'
      else split_newline (acc +:+ String c "") s'
  end.

Definition concat_text (l : list Fragment.t) : string :=
  foldr (fun item acc => Fragment.text item +:+ acc) "" l.

(** The lines of a fragment list: [line] is the line under construction
    and [parts] what [split('\n')] gave for the current fragment. *)
Fixpoint split_parts (item : Fragment.t) (parts : list string)
    (line : list Fragment.t) : list (list Fragment.t) * list Fragment.t :=
  match parts with
  | [] => ([], line)
  | [last] =>
      ([], line ++ [Fragment.mk (Fragment.style_str item) last
                                (Fragment.handler item)])
  | part :: rest =>
      let line' :=
        if String.eqb part "" then line
        else line ++ [Fragment.mk (Fragment.style_str item) part
                                  (Fragment.handler item)] in
      let '(done, cur) := split_parts item rest [] in
      (line' :: done, cur)
  end.

Fixpoint split_fragments (l : list Fragment.t) (line : list Fragment.t)
    : list (list Fragment.t) :=
  match l with
  | [] => [line]
  | item :: rest =>
      let '(done, cur) :=
        split_parts item (split_newline "" (Fragment.text item)) line in
      done ++ split_fragments rest cur
  end.

(** Modelled from the spec: the text helpers for ASCII text. Every
    character is one cell wide; the plain text of a fragment list is
    the concatenation of its texts; a style given to [to_formatted_text]
    is put before the style of every fragment; [split_lines] cuts the
    fragment stream at the newlines. *)
#[export] Instance text_utils : TextUtils := {
  get_cwidth := len;
  fragment_list_to_text := concat_text;
  to_formatted_text := fun value style =>
    let l := match value with
             | PlainText s => [frag "" s]
             | FragmentList l => l
             end in
    if String.eqb style "" then l
    else map (fun item =>
                Fragment.mk (style +:+ " " +:+ Fragment.style_str item)
                            (Fragment.text item) (Fragment.handler item)) l;
  split_lines := fun l => split_fragments l []
}.

(** Modelled from the spec: a handler that reports the event as
    handled. *)
#[export] Instance mouse_handlers : MouseHandlers := {
  call_handler := fun _ _ => Ok Handled
}.

Definition lines (d : Document.t) : list string :=
  split_newline "" (Document.text d).

(** The offset at which row [row] starts. *)
Fixpoint line_start (ls : list string) (row : nat) : Z :=
  match row, ls with
  | S row', l :: ls' => len l + 1 + line_start ls' row'
  | _, _ => 0
  end.

Definition row_col_to_index (d : Document.t) (row col : Z) : Z :=
  let ls := lines d in
  let row := Z.to_nat (Z.max 0 (Z.min row (Z.of_nat (length ls) - 1))) in
  let line := List.nth row ls "" in
  let result := line_start ls row + Z.max 0 (Z.min col (len line)) in
  Z.max 0 (Z.min result (len (Document.text d))).

(** The row and the column of offset [index], from row [row] on. *)
Fixpoint index_to_position (ls : list string) (row index : Z) : Z * Z :=
  match ls with
  | [] => (row, index)
  | [l] => (row, index)
  | l :: ls' =>
      if index <=? len l then (row, index)
      else index_to_position ls' (row + 1) (index - len l - 1)
  end.

Definition is_word_char (c : ascii) : bool :=
  let n := nat_of_ascii c in
  ((48 <=? n) && (n <=? 57) || (65 <=? n) && (n <=? 90)
   || (97 <=? n) && (n <=? 122) || (n =? 95))%nat.

Definition is_space (c : ascii) : bool :=
  let n := nat_of_ascii c in
  ((n =? 32) || (9 <=? n) && (n <=? 13))%nat.

Definition is_other (c : ascii) : bool :=
  negb (is_word_char c) && negb (is_space c).

(** The length of the longest prefix of [s] made of characters of one
    class. *)
Fixpoint span (p : ascii -> bool) (s : string) : Z :=
  match s with
  | String c s' => if p c then 1 + span p s' else 0
  | EmptyString => 0
  end.

(** The length of the word that [s] starts with: a run of word
    characters, or else a run of characters that are neither word
    characters nor spaces. *)
Definition word_at_start (s : string) : Z :=
  if 0 <? span is_word_char s then span is_word_char s
  else span is_other s.

Fixpoint rev_string (s acc : string) : string :=
  match s with
  | EmptyString => acc
  | String c s' => rev_string s' (String c acc)
  end.

Definition boundaries_of_current_word (d : Document.t) : Z * Z :=
  let '(row, col) :=
    index_to_position (lines d) 0 (Document.cursor_position d) in
  let line := List.nth (Z.to_nat row) (lines d) "" in
  let before := rev_string (String.substring 0 (Z.to_nat col) line) "" in
  let after :=
    String.substring (Z.to_nat col) (String.length line - Z.to_nat col) line in
  let match_before := word_at_start before in
  let match_after := word_at_start after in
  let match_before :=
    match before, after with
    | String c1 _, String c2 _ =>
        if (0 <? match_before) && (0 <? match_after)
           && negb (Bool.eqb (is_word_char c1) (is_word_char c2))
        then 0 else match_before
    | _, _ => match_before
    end in
  (- match_before, match_after).

(** The offsets from [i] on at which [needle] occurs in [s]. *)
Fixpoint occurrences (needle s : string) (i : Z) : list Z :=
  (if String.prefix needle s then [i] else []) ++
  match s with
  | EmptyString => []
  | String _ s' => occurrences needle s' (i + 1)
  end.

Definition lower_char (c : ascii) : ascii :=
  let n := nat_of_ascii c in
  if ((65 <=? n) && (n <=? 90))%nat then ascii_of_nat (n + 32) else c.

Fixpoint lower (s : string) : string :=
  match s with
  | EmptyString => EmptyString
  | String c s' => String (lower_char c) (lower s')
  end.

Definition search_document (b : Buffer.t) (ss : SearchState.t) : Document.t :=
  let fold := if SearchState.ignore_case ss then lower else (fun s => s) in
  let occ := occurrences (fold (SearchState.text ss)) (fold (Buffer.text b)) 0 in
  let cursor := Buffer.cursor_position b in
  let found :=
    match SearchState.direction ss with
    | FORWARD =>
        match filter (fun i => cursor <= i) occ with
        | i :: _ => Some i
        | [] => head occ
        end
    | BACKWARD =>
        match reverse (filter (fun i => i <= cursor) occ) with
        | i :: _ => Some i
        | [] => last occ
        end
    end in
  match found with
  | Some i => Document.mk (Buffer.text b) i (Buffer.selection_state b)
  | None => Buffer.document b
  end.

(** Modelled from the spec: the document operations on a text made of
    lines: row and column of the cursor, number of lines, the
    conversions between offsets and rows and columns (clamped to the
    text), the boundaries of the word around the cursor relative to it,
    and the document of a search: the same text with the cursor on the
    next (or previous) match of the search text, starting at the
    cursor. *)
#[export] Instance document_ops : DocumentOps := {
  cursor_position_row := fun d =>
    fst (index_to_position (lines d) 0 (Document.cursor_position d));
  cursor_position_col := fun d =>
    snd (index_to_position (lines d) 0 (Document.cursor_position d));
  line_count := fun d => Z.of_nat (length (lines d));
  translate_index_to_position := fun d index =>
    index_to_position (lines d) 0 index;
  translate_row_col_to_index := row_col_to_index;
  find_boundaries_of_current_word := boundaries_of_current_word;
  document_for_search := search_document
}.

(** Modelled from the spec: the lexer gives line [i] of the text as one
    unstyled fragment (no fragment outside the text), and the merged
    processors leave the fragments and the columns as they are. *)
#[export] Instance pipeline : BufferControl.Pipeline := {
  BufferControl.lex_document := fun _ d i =>
    match py_index (lines d) i with
    | Ok l => [frag "" l]
    | Raise _ => []
    end;
  BufferControl.invalidation_hash := fun _ => 0;
  BufferControl.merge_processors := fun _ ti =>
    Transformation.mk (BufferControl.ti_fragments ti)
                      (BufferControl.ti_source_to_display ti)
                      (fun i => i)
}.

End Reference.

(** ** A pipeline that shows a prompt *)

Module Prompted.

(** Modelled from the spec: a transformation stage that puts a prompt of
    two cells before every line. The fragments get one fragment in
    front, a display column is the source column plus two, and a source
    column is the display column minus two. The lexer is the one of
    [Reference]. *)
#[export] Instance pipeline : BufferControl.Pipeline := {
  BufferControl.lex_document :=
    BufferControl.lex_document (Pipeline := Reference.pipeline);
  BufferControl.invalidation_hash := fun _ => 0;
  BufferControl.merge_processors := fun _ ti =>
    Transformation.mk (frag "" "> " :: BufferControl.ti_fragments ti)
                      (fun i => BufferControl.ti_source_to_display ti i + 2)
                      (fun i => i - 2)
}.

End Prompted.

(** ** The specification's account of line heights *)

(** [ceil(w / k)] for a positive [k]. *)
Definition ceil_div (w k : Z) : Z := (w + k - 1) / k.

Section height_spec.
Context `{TextUtils}.

(** The display width of the prefix that [get_line_prefix] gives for the
    first row ([is_continuation = false]) or for a continuation row of
    line [lineno]. *)
Definition prefix_width (get_line_prefix : LinePrefix) (width lineno : Z)
    (is_continuation : bool) : Z :=
  get_cwidth (fragment_list_to_text
    (to_formatted_text (get_line_prefix width lineno is_continuation) "")).

(** Step 4 of the specification, in its words: from a height and an
    accumulated text width, while the text width exceeds the width,
    increment the height, subtract the width, and add the width of the
    continuation prefix back; a continuation prefix wider than the width
    gives the large height instead. [spec_wrap p i w h tw r] says that the
    procedure started at height [h] and text width [tw] ends with [r]. *)
Inductive spec_wrap (get_line_prefix : LinePrefix) (lineno width : Z)
    : Z -> Z -> Z -> Prop :=
  | spec_wrap_fits height text_width :
      text_width <= width ->
      spec_wrap get_line_prefix lineno width height text_width height
  | spec_wrap_abort height text_width :
      width < text_width ->
      width < prefix_width get_line_prefix width lineno true ->
      spec_wrap get_line_prefix lineno width height text_width
                UIContent.very_big
  | spec_wrap_continue height text_width r :
      width < text_width ->
      prefix_width get_line_prefix width lineno true <= width ->
      spec_wrap get_line_prefix lineno width (height + 1)
                (text_width - width
                 + prefix_width get_line_prefix width lineno true) r ->
      spec_wrap get_line_prefix lineno width height text_width r.

(** The height of line [lineno] at [width] as the specification computes
    it (steps 1 to 4): the large height at width zero; otherwise the
    procedure above, started at height one and at the width of the line's
    text plus that of the first-row prefix. *)
Definition spec_height_for_line (self : UIContent.t) (lineno width : Z)
    (get_line_prefix : LinePrefix) (height : Z) : Prop :=
  if decide (width = 0) then height = UIContent.very_big
  else
    exists fragments,
      UIContent.get_line self lineno = Ok fragments /\
      spec_wrap get_line_prefix lineno width 1
        (get_cwidth (fragment_list_to_text fragments)
         + prefix_width get_line_prefix width lineno false)
        height.

End height_spec.

(** A content as [get_height_for_line] leaves it when it has stored
    [height] under [key]. *)
Definition with_height (self : UIContent.t) (key : Z * Z * Z) (height : Z)
    : UIContent.t :=
  UIContent.set_line_heights self
    (<[key := height]> (UIContent._line_heights self)).

(** ** The specification's account of position markers *)

(** The summed text lengths of the fragments of a line. *)
Definition text_length (line : list Fragment.t) : Z :=
  foldr (fun item acc => len (Fragment.text item) + acc) 0 line.

(** The style of the fragment holds the marker. *)
Definition has_marker (marker : string) (item : Fragment.t) : Prop :=
  contains marker (Fragment.style_str item) = true.

(** No fragment of no line holds the marker. *)
Definition no_marker (marker : string) (fragment_lines : list (list Fragment.t))
    : Prop :=
  Forall (Forall (fun item => ~ has_marker marker item)) fragment_lines.

(** [p] is the (column, row) at which the marker is first encountered,
    rows from the top and fragments from the left: row [y p] has a
    fragment with the marker, no fragment before it in that row and no
    fragment of an earlier row has it, and [x p] is the length of the text
    before it in its row. *)
Definition first_marker (marker : string)
    (fragment_lines : list (list Fragment.t)) (p : Point) : Prop :=
  exists (row : nat) line before item after,
    y p = Z.of_nat row /\
    fragment_lines !! row = Some line /\
    line = before ++ item :: after /\
    has_marker marker item /\
    Forall (fun item' => ~ has_marker marker item') before /\
    x p = text_length before /\
    no_marker marker (take row fragment_lines).

Section content_cache.
Context `{TextUtils}.

(** What holds of a content stored under a key of the content cache of a
    [FormattedTextControl]: its cursor is the one of the key and its menu
    position is what the scan of the key's fragments gives. *)
Definition content_positions_ok
    (entry : FormattedTextControl.content_key * UIContent.t) : Prop :=
  let '(fragments, _, cursor_position, content) := entry in
  (UIContent.cursor_position content = default (mkPoint 0 0) cursor_position)
  /\ (UIContent.menu_position content
      = FormattedTextControl.scan_lines "[SetMenuPosition]"
          (map (map strip_handler) (split_lines fragments)) 0).

Definition content_cache_ok
    (cache : SimpleCache.t FormattedTextControl.content_key UIContent.t)
    : Prop :=
  Forall content_positions_ok (SimpleCache.data cache).

(** What also holds of a stored content: it has the lines of the key's
    fragments, without their mouse handlers, indexed as a Python list. *)
Definition content_lines_ok
    (entry : FormattedTextControl.content_key * UIContent.t) : Prop :=
  let '(fragments, _, _, content) := entry in
  let fragment_lines := map (map strip_handler) (split_lines fragments) in
  (UIContent.line_count content = Z.of_nat (length fragment_lines))
  /\ (forall i, UIContent.get_line content i = py_index fragment_lines i).

End content_cache.

(** ** Examples of contents *)

Module Examples.

Import Reference.

(** One line of ten cells. *)
Definition ten_cells : UIContent.t :=
  UIContent.__init__ (fun _ => Ok [frag "" "aaaaaaaaaa"]) 1 None None true.

(** A prefix of two cells on every row. *)
Definition two_cell_prefix : LinePrefix :=
  fun _ _ _ => FragmentList [frag "" ">>"].

(** [ten_cells] after its line 0 was measured at width 5, without prefix,
    in render pass 7. *)
Definition ten_cells_measured : UIContent.t := with_height ten_cells (7, 0, 5) 2.

(** A control that shows the two lines "a" and "b". *)
Definition two_lines : FormattedTextControl.t :=
  FormattedTextControl.__init__ (PlainText "a
b") "" false true false None.

(** A control on fragments that mark the cursor after "ab" in the first
    line and the menu at the start of the second. *)
Definition marked : FormattedTextControl.t :=
  FormattedTextControl.__init__
    (FragmentList [frag "" "ab"; frag "[SetCursorPosition]" ""; frag "" "c
"; frag "[SetMenuPosition]" "x"])
    "" false true false None.

(** A control on "ab" followed by "cd", the latter with mouse handler 3,
    and the control after its content was created. *)
Definition clickable : FormattedTextControl.t :=
  FormattedTextControl.__init__
    (FragmentList [frag "" "ab"; Fragment.mk "" "cd" (Some 3%nat)])
    "" false true false None.

Definition clickable_rendered : FormattedTextControl.t :=
  snd (FormattedTextControl.create_content 7 clickable 80 None).

(** A control on the buffer "foo bar", cursor at offset 0, with identity
    1; [focused] is a layout in which it has the focus. *)
Definition foo_bar : BufferControl.t :=
  BufferControl.__init__ 1 (Some (Buffer.mk "foo bar" 0 None None))
    None true None false true None None false.

Definition focused : Layout := mkLayout 1 0.

(** The control after [create_content] at width 80. *)
Definition rendered (self : BufferControl.t) : BufferControl.t :=
  snd (fst (BufferControl.create_content focused ∅ self 80 None false)).

(** The processed-line function that a control has recorded. *)
Definition recorded_lines (self : BufferControl.t) : Z -> _ProcessedLine :=
  default (fun _ => mk_ProcessedLine [] (fun i => i) (fun i => i))
          (BufferControl._last_get_processed_line self).

Definition press (x y : Z) : MouseEvent := mkMouseEvent (mkPoint x y) MOUSE_DOWN.
Definition release (x y : Z) : MouseEvent := mkMouseEvent (mkPoint x y) MOUSE_UP.

(** The control after a mouse event at time [now]. *)
Definition after (self : BufferControl.t) (now : Q) (mouse_event : MouseEvent)
    : BufferControl.t :=
  snd (fst (BufferControl.mouse_handler focused now now self mouse_event)).

(** "foo bar" after a click at column 5 (press and release at time 100),
    and after the press of a second click a tenth of a second later. *)
Definition foo_bar_clicked : BufferControl.t :=
  after (after (rendered foo_bar) 100 (press 5 0)) 100 (release 5 0).

Definition foo_bar_pressed_again : BufferControl.t :=
  after foo_bar_clicked (1001 # 10) (press 5 0).

(** A search field that holds "ba", with its search state at reference 0
    of [search_store], and a control on "foo bar" that previews the
    search; in [searching] the control is the one being searched. *)
Definition search_field : SearchBufferControl.t :=
  SearchBufferControl.mk (Buffer.mk "ba" 2 None None) 0%nat.

Definition search_store : store := {[ 0%nat := SearchState.__init__ ]}.

Definition foo_bar_searched : BufferControl.t :=
  BufferControl.__init__ 1 (Some (Buffer.mk "foo bar" 0 None None))
    None true None true true (Some (inl search_field)) None false.

Definition searching : Layout := mkLayout 2 1.



(** The fragments of [marked], in a control that was given a
    [get_cursor_position] function, which returns column 5 of row 6. *)
Definition marked_with_function : FormattedTextControl.t :=
  FormattedTextControl.__init__
    (FragmentList [frag "" "ab"; frag "[SetCursorPosition]" ""; frag "" "c
"; frag "[SetMenuPosition]" "x"])
    "" false true false (Some (fun _ => Some (mkPoint 5 6))).

End Examples.

(** * Properties *)

(** ** Line heights *)

Section height_facts.
Context `{TextUtils}.

Lemma wrap_loop_sound fuel p i w : forall h tw r,
  UIContent.wrap_loop fuel p i w h tw = Some r -> spec_wrap p i w h tw r.
Proof.
  induction fuel as [|fuel IH]; intros h tw r Hr; simpl in Hr; [discriminate|].
  destruct (tw >? w) eqn:Htw.
  - apply Z.gtb_lt in Htw.
    fold (prefix_width p w i true) in Hr.
    destruct (prefix_width p w i true >? w) eqn:Hp.
    + apply Z.gtb_lt in Hp. inversion Hr; subst. now apply spec_wrap_abort.
    + apply spec_wrap_continue; [lia | | now apply IH].
      rewrite Z.gtb_ltb in Hp. apply Z.ltb_ge in Hp. lia.
  - inversion Hr; subst. apply spec_wrap_fits.
    rewrite Z.gtb_ltb in Htw. apply Z.ltb_ge in Htw. lia.
Qed.

Lemma wrap_loop_complete p i w h tw r :
  spec_wrap p i w h tw r ->
  exists fuel, forall fuel', (fuel <= fuel')%nat ->
    UIContent.wrap_loop fuel' p i w h tw = Some r.
Proof.
  induction 1 as [h tw Hfit | h tw Htw Hp | h tw r Htw Hp _ [fuel IH]].
  - exists 1%nat. intros [|fuel'] Hle; [lia|]. simpl.
    destruct (tw >? w) eqn:E; [apply Z.gtb_lt in E; lia | reflexivity].
  - exists 1%nat. intros [|fuel'] Hle; [lia|]. simpl.
    fold (prefix_width p w i true).
    destruct (tw >? w) eqn:E.
    + destruct (prefix_width p w i true >? w) eqn:E'; [reflexivity|].
      rewrite Z.gtb_ltb in E'. apply Z.ltb_ge in E'. lia.
    + rewrite Z.gtb_ltb in E. apply Z.ltb_ge in E. lia.
  - exists (S fuel). intros [|fuel'] Hle; [lia|]. simpl.
    fold (prefix_width p w i true).
    destruct (tw >? w) eqn:E.
    + destruct (prefix_width p w i true >? w) eqn:E'.
      * apply Z.gtb_lt in E'. lia.
      * apply IH. lia.
    + rewrite Z.gtb_ltb in E. apply Z.ltb_ge in E. lia.
Qed.

Lemma spec_wrap_deterministic p i w h tw r1 r2 :
  spec_wrap p i w h tw r1 -> spec_wrap p i w h tw r2 -> r1 = r2.
Proof.
  intros H1 H2.
  destruct (wrap_loop_complete _ _ _ _ _ _ H1) as [f1 F1].
  destruct (wrap_loop_complete _ _ _ _ _ _ H2) as [f2 F2].
  specialize (F1 (f1 + f2)%nat ltac:(lia)).
  specialize (F2 (f1 + f2)%nat ltac:(lia)).
  congruence.
Qed.

(** The procedure ends unless the continuation prefix is exactly as wide
    as the width while the text is wider. *)
Lemma spec_wrap_total p i w h tw :
  prefix_width p w i true <> w \/ tw <= w ->
  exists r, spec_wrap p i w h tw r.
Proof.
  intros Hcond.
  destruct (Z_le_gt_dec tw w) as [Hfit|Hwide].
  { exists h. now apply spec_wrap_fits. }
  destruct (Z_lt_le_dec w (prefix_width p w i true)) as [Hbig|Hsmall].
  { exists UIContent.very_big. apply spec_wrap_abort; lia. }
  assert (Hlt : prefix_width p w i true < w) by lia. clear Hcond Hsmall.
  remember (Z.to_nat (tw - w)) as n eqn:Hn.
  revert h tw Hwide Hn.
  induction (lt_wf n) as [n _ IH]. intros h tw Hwide Hn.
  destruct (Z_le_gt_dec (tw - w + prefix_width p w i true) w) as [Hfit|Hwide'].
  - exists (h + 1). apply spec_wrap_continue; [lia|lia|].
    now apply spec_wrap_fits.
  - destruct (IH (Z.to_nat (tw - w + prefix_width p w i true - w))
                 ltac:(lia) (h + 1) _ Hwide' eq_refl) as [r Hr].
    exists r. apply spec_wrap_continue; [lia|lia|exact Hr].
Qed.

(** When the continuation prefix is exactly as wide as the width and the
    text is wider, the loop never ends. *)
Lemma wrap_loop_diverges fuel p i w : forall h tw,
  prefix_width p w i true = w -> w < tw ->
  UIContent.wrap_loop fuel p i w h tw = None.
Proof.
  induction fuel as [|fuel IH]; intros h tw Hp Htw; [reflexivity|].
  simpl. fold (prefix_width p w i true). rewrite Hp.
  destruct (tw >? w) eqn:E.
  - destruct (w >? w) eqn:E'; [apply Z.gtb_lt in E'; lia|].
    apply IH; [exact Hp | lia].
  - rewrite Z.gtb_ltb in E. apply Z.ltb_ge in E. lia.
Qed.

End height_facts.

Section height_for_line.
Context `{TextUtils}.

(** A stored height is returned as it is, whatever the prefix function. *)
Lemma get_height_for_line_hit fuel rc self i w prefix height :
  UIContent._line_heights self !! (rc, i, w) = Some height ->
  UIContent.get_height_for_line fuel rc self i w prefix = Some (Ok height, self).
Proof. intros Hhit. unfold UIContent.get_height_for_line. now rewrite Hhit. Qed.

(** On a miss at a width that is not zero, the call is the loop started
    at height 1, and its result is stored. *)
Lemma get_height_for_line_miss fuel rc self i w prefix fragments :
  UIContent._line_heights self !! (rc, i, w) = None ->
  w <> 0 ->
  UIContent.get_line self i = Ok fragments ->
  let p := default UIContent.no_prefix prefix in
  UIContent.get_height_for_line fuel rc self i w prefix
  = match UIContent.wrap_loop fuel p i w 1
            (get_cwidth (fragment_list_to_text fragments)
             + prefix_width p w i false) with
    | None => None
    | Some height => Some (Ok height, with_height self (rc, i, w) height)
    end.
Proof.
  intros Hmiss Hw Hline p. unfold UIContent.get_height_for_line.
  rewrite Hmiss.
  destruct (w =? 0) eqn:E; [apply Z.eqb_eq in E; contradiction|].
  rewrite Hline. reflexivity.
Qed.

(** C1, amended. When no height is stored for (render pass, line i, width
    w): at w = 0 [get_height_for_line] returns the large height 10^8;
    otherwise what it returns is exactly what the wrapping procedure of
    the specification gives from height 1 and from the width of the line's
    text plus the first-row prefix, it does return whenever that
    procedure ends, and the procedure ends when the continuation prefix is
    not exactly w wide or the text fits the width. The returned height is
    stored. When a height is stored already, that height is returned. *)
Theorem get_height_for_line_computes rc self i w (prefix : option LinePrefix) :
  let key := (rc, i, w) in
  let p := default UIContent.no_prefix prefix in
  (forall height fuel,
      UIContent._line_heights self !! key = Some height ->
      UIContent.get_height_for_line fuel rc self i w prefix
      = Some (Ok height, self))
  /\
  (UIContent._line_heights self !! key = None ->
   (w = 0 ->
    forall fuel,
      UIContent.get_height_for_line fuel rc self i w prefix
      = Some (Ok UIContent.very_big, with_height self key UIContent.very_big))
   /\
   (w <> 0 ->
    forall fragments, UIContent.get_line self i = Ok fragments ->
      let text_width :=
        get_cwidth (fragment_list_to_text fragments)
        + prefix_width p w i false in
      (forall fuel r,
          UIContent.get_height_for_line fuel rc self i w prefix = Some r ->
          exists height,
            r = (Ok height, with_height self key height) /\
            spec_wrap p i w 1 text_width height)
      /\
      (forall height,
          spec_wrap p i w 1 text_width height ->
          exists fuel, forall fuel', (fuel <= fuel')%nat ->
            UIContent.get_height_for_line fuel' rc self i w prefix
            = Some (Ok height, with_height self key height))
      /\
      (prefix_width p w i true <> w \/ text_width <= w ->
       exists height, spec_wrap p i w 1 text_width height))).
Proof.
  intros key p. split.
  { intros height fuel Hhit. now apply get_height_for_line_hit. }
  intros Hmiss. split.
  - intros -> fuel. unfold UIContent.get_height_for_line.
    fold key. rewrite Hmiss. reflexivity.
  - intros Hw fragments Hline text_width.
    assert (Hstep : forall fuel,
      UIContent.get_height_for_line fuel rc self i w prefix
      = match UIContent.wrap_loop fuel p i w 1 text_width with
        | None => None
        | Some height => Some (Ok height, with_height self key height)
        end).
    { intros fuel.
      exact (get_height_for_line_miss fuel rc self i w prefix fragments
               Hmiss Hw Hline). }
    split; [|split].
    + intros fuel r Hr. rewrite Hstep in Hr.
      destruct (UIContent.wrap_loop fuel p i w 1 text_width) as [height|] eqn:E;
        [|discriminate].
      exists height. split; [congruence|]. now apply wrap_loop_sound in E.
    + intros height Hspec.
      destruct (wrap_loop_complete _ _ _ _ _ _ Hspec) as [fuel Hfuel].
      exists fuel. intros fuel' Hle. rewrite Hstep, (Hfuel fuel' Hle).
      reflexivity.
    + apply spec_wrap_total.
Qed.

(** X6. On a miss with a continuation prefix exactly as wide as the width
    and a wider text, [get_height_for_line] does not return: every
    iteration takes the width off the text width and puts it back. *)
Lemma get_height_for_line_diverges fuel rc self i w prefix fragments :
  let p := default UIContent.no_prefix prefix in
  UIContent._line_heights self !! (rc, i, w) = None ->
  w <> 0 ->
  UIContent.get_line self i = Ok fragments ->
  prefix_width p w i true = w ->
  w < get_cwidth (fragment_list_to_text fragments) + prefix_width p w i false ->
  UIContent.get_height_for_line fuel rc self i w prefix = None.
Proof.
  intros p Hmiss Hw Hline Hp Hwide. unfold UIContent.get_height_for_line.
  rewrite Hmiss.
  destruct (w =? 0) eqn:E; [apply Z.eqb_eq in E; contradiction|].
  rewrite Hline. fold p. fold (prefix_width p w i false).
  now rewrite (wrap_loop_diverges fuel p i w 1 _ Hp Hwide).
Qed.

End height_for_line.

Section height_for_line_runs.
#[local] Existing Instance Reference.text_utils.

(** C1, a state in which the claim fails: after line 0 of [ten_cells] was
    measured at width 5 without prefix (height 2, stored), measuring it
    in the same render pass with a prefix of two cells returns the stored
    2, while the procedure of the specification gives 4 for that
    prefix. *)
Lemma get_height_for_line_stale_entry :
  UIContent.get_height_for_line 2 7 Examples.ten_cells 0 5 None
  = Some (Ok 2, Examples.ten_cells_measured)
  /\ (forall fuel,
        UIContent.get_height_for_line fuel 7 Examples.ten_cells_measured 0 5
          (Some Examples.two_cell_prefix)
        = Some (Ok 2, Examples.ten_cells_measured))
  /\ spec_height_for_line Examples.ten_cells_measured 0 5
       Examples.two_cell_prefix 4
  /\ ~ spec_height_for_line Examples.ten_cells_measured 0 5
       Examples.two_cell_prefix 2.
Proof.
  assert (Hspec : spec_height_for_line Examples.ten_cells_measured 0 5
                    Examples.two_cell_prefix 4).
  { unfold spec_height_for_line. simpl.
    exists [frag "" "aaaaaaaaaa"]. split; [reflexivity|].
    apply wrap_loop_sound with (fuel := 5%nat). reflexivity. }
  split; [reflexivity|]. split; [|split; [exact Hspec|]].
  - intros fuel. apply get_height_for_line_hit. reflexivity.
  - intros Hbad. unfold spec_height_for_line in Hspec, Hbad. simpl in Hspec, Hbad.
    destruct Hspec as [f1 [E1 S1]]. destruct Hbad as [f2 [E2 S2]].
    assert (f1 = f2) by congruence. subst f2.
    pose proof (spec_wrap_deterministic _ _ _ _ _ _ _ S1 S2). discriminate.
Qed.

(** The amended C1 at a content that has stored nothing: line 0 of
    [ten_cells] at width 5 with a prefix of two cells has height 4. *)
Lemma get_height_for_line_computes_witness :
  exists fuel,
    UIContent.get_height_for_line fuel 7 Examples.ten_cells 0 5
      (Some Examples.two_cell_prefix)
    = Some (Ok 4, with_height Examples.ten_cells (7, 0, 5) 4).
Proof.
  destruct (get_height_for_line_computes 7 Examples.ten_cells 0 5
              (Some Examples.two_cell_prefix)) as [_ Hmiss].
  destruct (Hmiss eq_refl) as [_ Hnz].
  destruct (Hnz ltac:(lia) [frag "" "aaaaaaaaaa"] eq_refl) as [_ [Hret _]].
  destruct (Hret 4) as [fuel Hfuel].
  { apply wrap_loop_sound with (fuel := 5%nat). reflexivity. }
  exists fuel. apply Hfuel. lia.
Defined.

End height_for_line_runs.

(** ** Heights without prefix *)

(** [ceil_div w k] is the least [q] with [w <= q * k]. *)
Lemma ceil_div_spec w k q :
  0 < k -> (ceil_div w k = q <-> (q - 1) * k < w <= q * k).
Proof.
  intros Hk. unfold ceil_div.
  pose proof (Z.div_mod (w + k - 1) k ltac:(lia)) as Hdm.
  pose proof (Z.mod_pos_bound (w + k - 1) k Hk) as Hmod.
  split.
  - intros <-. nia.
  - intros Hq. nia.
Qed.

Section height_no_prefix.
Context `{TextUtils}.

Lemma spec_wrap_no_prefix p i k (n : nat) : forall h tw,
  0 < k ->
  prefix_width p k i true = 0 ->
  tw <= (Z.of_nat n + 1) * k ->
  (0 < Z.of_nat n -> Z.of_nat n * k < tw) ->
  spec_wrap p i k h tw (h + Z.of_nat n).
Proof.
  induction n as [|n IH]; intros h tw Hk Hp Hup Hlow.
  - rewrite Z.add_0_r. apply spec_wrap_fits. simpl in Hup. lia.
  - apply spec_wrap_continue; [nia | lia |].
    rewrite Hp, Z.add_0_r.
    replace (h + Z.of_nat (S n)) with (h + 1 + Z.of_nat n) by lia.
    apply IH; [exact Hk | exact Hp | nia | nia].
Qed.

(** [get_height_for_text] is the ceiling division with a minimum of one. *)
Lemma get_height_for_text_ceil text k :
  0 < k ->
  UIContent.get_height_for_text text k = Z.max 1 (ceil_div (get_cwidth text) k).
Proof.
  intros Hk. unfold UIContent.get_height_for_text.
  destruct (k =? 0) eqn:E; [apply Z.eqb_eq in E; lia|].
  set (w := get_cwidth text).
  pose proof (Z.div_mod w k ltac:(lia)) as Hdm.
  pose proof (Z.mod_pos_bound w k Hk) as Hmod.
  f_equal. symmetry. apply ceil_div_spec; [exact Hk|].
  destruct (w mod k =? 0) eqn:E'.
  - apply Z.eqb_eq in E'. nia.
  - apply Z.eqb_neq in E'. nia.
Qed.

(** C2, amended. For a line whose text is w cells wide, measured without
    prefix (the empty prefix being zero cells wide) at a width k > 0 for
    which no height is stored, [get_height_for_line] returns
    max(1, ceil(w / k)): ceil(w / k) for a line that is not empty, and 1
    for an empty one. *)
Theorem get_height_for_line_no_prefix rc self i k fragments :
  0 < k ->
  UIContent._line_heights self !! (rc, i, k) = None ->
  UIContent.get_line self i = Ok fragments ->
  get_cwidth (fragment_list_to_text (to_formatted_text (FragmentList []) "")) = 0 ->
  let w := get_cwidth (fragment_list_to_text fragments) in
  let height := Z.max 1 (ceil_div w k) in
  exists fuel, forall fuel', (fuel <= fuel')%nat ->
    UIContent.get_height_for_line fuel' rc self i k None
    = Some (Ok height, with_height self (rc, i, k) height).
Proof.
  intros Hk Hmiss Hline Hempty w height.
  assert (Hp : forall b, prefix_width UIContent.no_prefix k i b = 0)
    by (intros b; exact Hempty).
  cut (spec_wrap UIContent.no_prefix i k 1 w height).
  { intros Hspec.
    destruct (wrap_loop_complete _ _ _ _ _ _ Hspec) as [fuel Hfuel].
    exists fuel. intros fuel' Hle.
    rewrite (get_height_for_line_miss fuel' rc self i k None fragments
               Hmiss ltac:(lia) Hline).
    simpl. rewrite Hp, Z.add_0_r. fold w. now rewrite (Hfuel fuel' Hle). }
  set (n := Z.to_nat (ceil_div w k - 1)).
  assert (Hheight : height = 1 + Z.of_nat n) by (unfold height, n; lia).
  rewrite Hheight.
  pose proof (proj1 (ceil_div_spec w k (ceil_div w k) Hk) eq_refl) as Hceil.
  apply spec_wrap_no_prefix; [exact Hk | apply Hp | |]; unfold n.
  - destruct (Z_le_gt_dec (ceil_div w k) 1) as [Hc1|Hc1].
    + replace (Z.of_nat (Z.to_nat (ceil_div w k - 1))) with 0 by lia. nia.
    + rewrite Z2Nat.id by lia.
      replace (ceil_div w k - 1 + 1) with (ceil_div w k) by lia. lia.
  - intros Hpos. rewrite Z2Nat.id by lia. lia.
Qed.

End height_no_prefix.

Section height_no_prefix_runs.
#[local] Existing Instance Reference.text_utils.

(** C2, an input on which the claim fails: the empty line of the content
    of a [DummyControl] is zero cells wide; at width 5 its height is 1,
    and ceil(0 / 5) is 0. *)
Lemma get_height_for_line_empty_line :
  UIContent.get_line (DummyControl.create_content 80 None) 0 = Ok []
  /\ get_cwidth (fragment_list_to_text []) = 0
  /\ ceil_div 0 5 = 0
  /\ UIContent.get_height_for_line 1 7 (DummyControl.create_content 80 None)
       0 5 None
     = Some (Ok 1, with_height (DummyControl.create_content 80 None) (7, 0, 5) 1).
Proof. repeat split; reflexivity. Qed.

(** The amended C2 on the line of ten cells at width 4: height 3. *)
Lemma get_height_for_line_no_prefix_witness :
  exists fuel,
    UIContent.get_height_for_line fuel 7 Examples.ten_cells 0 4 None
    = Some (Ok 3, with_height Examples.ten_cells (7, 0, 4) 3).
Proof.
  destruct (get_height_for_line_no_prefix 7 Examples.ten_cells 0 4
              [frag "" "aaaaaaaaaa"] ltac:(lia) ltac:(reflexivity)
              ltac:(reflexivity) ltac:(reflexivity))
    as [fuel Hfuel].
  exists fuel. apply (Hfuel fuel). lia.
Defined.

End height_no_prefix_runs.

(** ** Indexing a content *)

(** C3, amended. Indexing a content at [i >= line_count] raises
    [IndexError]: the index is not clamped and no line is returned. At
    every [i < line_count], the negative ones included, the index is
    handed to [get_line] as it is and the result of [get_line] is the
    result. *)
Theorem getitem_upper_bound_only (self : UIContent.t) (i : Z) :
  (UIContent.line_count self <= i ->
   UIContent.__getitem__ self i = Raise IndexError)
  /\
  (i < UIContent.line_count self ->
   UIContent.__getitem__ self i = UIContent.get_line self i).
Proof.
  unfold UIContent.__getitem__. split; intros Hi.
  - destruct (i <? UIContent.line_count self) eqn:E; [|reflexivity].
    apply Z.ltb_lt in E. lia.
  - destruct (i <? UIContent.line_count self) eqn:E; [reflexivity|].
    apply Z.ltb_ge in E. lia.
Qed.

Section getitem_runs.
#[local] Existing Instance Reference.text_utils.

(** C3, an index on which the claim fails: the content of a control that
    shows the lines "a" and "b" has two lines; index -1 is outside
    [0 <= i < 2], and indexing there returns the line "b". *)
Lemma getitem_negative_index :
  let content :=
    fst (FormattedTextControl.create_content 7 Examples.two_lines 80 None) in
  UIContent.line_count content = 2
  /\ ~ (0 <= -1 < UIContent.line_count content)
  /\ UIContent.__getitem__ content (-1) = Ok [frag "" "b"].
Proof. simpl. repeat split; try reflexivity. lia. Qed.

(** The amended C3 on the same content: index 2 raises, index -1 is what
    [get_line] returns for -1. *)
Lemma getitem_upper_bound_only_witness :
  let content :=
    fst (FormattedTextControl.create_content 7 Examples.two_lines 80 None) in
  UIContent.__getitem__ content 2 = Raise IndexError
  /\ UIContent.__getitem__ content (-1) = UIContent.get_line content (-1).
Proof.
  intros content. split.
  - apply (proj1 (getitem_upper_bound_only content 2)). simpl. lia.
  - apply (proj2 (getitem_upper_bound_only content (-1))). simpl. lia.
Defined.

End getitem_runs.

(** ** Mouse events before the content is rendered *)

Section mouse_outside.
Context `{TextUtils} `{MouseHandlers}.

(** A [FormattedTextControl] reports a mouse event as not handled when no
    fragments were rendered and when the row is past the rendered
    lines. *)
Lemma FormattedTextControl_mouse_handler_outside
    (self : FormattedTextControl.t) (mouse_event : MouseEvent) :
  FormattedTextControl._fragments self = None
  \/ FormattedTextControl._fragments self = Some []
  \/ (exists fragments,
        FormattedTextControl._fragments self = Some fragments /\
        Z.of_nat (length (split_lines fragments)) <= y (position mouse_event)) ->
  FormattedTextControl.mouse_handler self mouse_event = Ok NotImplemented.
Proof.
  unfold FormattedTextControl.mouse_handler.
  intros [-> | [-> | [fragments [-> Hy]]]]; [reflexivity | reflexivity |].
  destruct fragments as [|item rest]; [reflexivity|].
  unfold py_index. cbv zeta.
  destruct (y (position mouse_event) <? 0) eqn:Hneg;
    [apply Z.ltb_lt in Hneg; lia|].
  destruct (y (position mouse_event)
            <? Z.of_nat (length (split_lines (item :: rest)))) eqn:Hlt;
    [apply Z.ltb_lt in Hlt; lia|].
  rewrite andb_false_r. reflexivity.
Qed.

End mouse_outside.

Section mouse_before_render.
Context `{DocumentOps}.

(** C4, what the code does where the claim fails. A focused
    [BufferControl] that has recorded no processed-line function takes
    neither branch of [mouse_handler] to a return statement: the call
    returns None, the marker of a handled event, and nothing changes. The
    claim says [NotImplemented]. No error is raised. *)
Theorem BufferControl_mouse_handler_before_render
    (layout : Layout) (time_check time_store : Q)
    (self : BufferControl.t) (mouse_event : MouseEvent) :
  current_control layout = BufferControl.ident self ->
  BufferControl._last_get_processed_line self = None ->
  BufferControl.mouse_handler layout time_check time_store self mouse_event
  = (Handled, self, layout).
Proof.
  intros Hfocus Hnone. unfold BufferControl.mouse_handler.
  rewrite Hfocus, Nat.eqb_refl, Hnone. reflexivity.
Qed.

End mouse_before_render.

Section mouse_before_render_runs.
#[local] Existing Instance Reference.document_ops.

(** A new, focused [BufferControl] on which [create_content] was never
    called, and a release at column 0 of row 0. *)
Lemma BufferControl_mouse_handler_before_render_witness :
  let self :=
    BufferControl.__init__ 1 None None true None false true None None false in
  let layout := mkLayout 1 0 in
  BufferControl.mouse_handler layout 100 100 self
    (mkMouseEvent (mkPoint 0 0) MOUSE_UP)
  = (Handled, self, layout).
Proof.
  intros self layout.
  apply (BufferControl_mouse_handler_before_render layout 100 100 self);
    reflexivity.
Defined.

End mouse_before_render_runs.

(** ** Mouse events on a rendered, focused BufferControl *)

Section mouse_selection.
Context `{DocumentOps}.

Lemma is_double_click_within (last now : Q) :
  ~ (last == 0)%Q -> (now - last < 3 # 10)%Q ->
  BufferControl.is_double_click (Some last) now = true.
Proof.
  intros Hlast Hnow. unfold BufferControl.is_double_click,
    BufferControl.float_truthy, BufferControl.within_300ms.
  apply andb_true_intro. split; apply negb_true_iff.
  - destruct (Qeq_bool last 0) eqn:E; [|reflexivity].
    apply Qeq_bool_iff in E. contradiction.
  - destruct (Qle_bool (3 # 10) (now - last)) eqn:E; [|reflexivity].
    apply Qle_bool_iff in E. exfalso. exact (Qlt_not_le _ _ Hnow E).
Qed.



(** Every release on a focused, rendered control records its time. *)
Lemma mouse_release_records_time
    (layout : Layout) (self : BufferControl.t) (gpl : Z -> _ProcessedLine)
    (release : Point) (now now' : Q) :
  current_control layout = BufferControl.ident self ->
  BufferControl._last_get_processed_line self = Some gpl ->
  BufferControl._last_click_timestamp
    (snd (fst (BufferControl.mouse_handler layout now now' self
                 (mkMouseEvent release MOUSE_UP))))
  = Some now'.
Proof.
  intros Hfocus Hgpl. unfold BufferControl.mouse_handler.
  rewrite Hfocus, Nat.eqb_refl, Hgpl. reflexivity.
Qed.

(** C6. On a focused, rendered control whose last recorded release was at
    [last], a release at [now] with [now - last] under three tenths of a
    second records its own time and, after the selection by dragging if
    there is one, selects the word around the cursor: the selection starts
    at the cursor plus the start boundary of the current word and the
    cursor ends at the cursor plus its end boundary. *)
Theorem mouse_release_double_click_selects_word
    (layout : Layout) (self : BufferControl.t) (gpl : Z -> _ProcessedLine)
    (release : Point) (last now now' : Q) :
  current_control layout = BufferControl.ident self ->
  BufferControl._last_get_processed_line self = Some gpl ->
  BufferControl._last_click_timestamp self = Some last ->
  ~ (last == 0)%Q ->
  (now - last < 3 # 10)%Q ->
  let buffer := BufferControl.buffer self in
  let index := BufferControl.mouse_index gpl buffer release in
  let moved :=
    if Z.abs (Buffer.cursor_position buffer - index) >? 1
    then BufferControl.select_to index buffer
    else buffer in
  let word := find_boundaries_of_current_word (Buffer.document moved) in
  exists self',
    BufferControl.mouse_handler layout now now' self
      (mkMouseEvent release MOUSE_UP)
    = (Handled, self', layout)
    /\ BufferControl._last_click_timestamp self' = Some now'
    /\ Buffer.selection_state (BufferControl.buffer self')
       = Some (mkSelectionState (Buffer.cursor_position moved + fst word)
                                CHARACTERS)
    /\ Buffer.cursor_position (BufferControl.buffer self')
       = Buffer.cursor_position moved + snd word
    /\ Buffer.text (BufferControl.buffer self') = Buffer.text buffer.
Proof.
  intros Hfocus Hgpl Hlast Hnz Hnow buffer index moved word.
  eexists. split.
  - unfold BufferControl.mouse_handler.
    rewrite Hfocus, Nat.eqb_refl, Hgpl, Hlast.
    rewrite (is_double_click_within last now Hnz Hnow).
    cbn [event_type position]. fold buffer. fold index. fold moved.
    reflexivity.
  - unfold BufferControl.select_word. fold word.
    destruct word as [start end_]. cbn.
    repeat split.
    + lia.
    + unfold moved. destruct (Z.abs _ >? 1); reflexivity.
Qed.

End mouse_selection.

Section mouse_selection_runs.
#[local] Existing Instance Reference.document_ops.
#[local] Existing Instance Reference.pipeline.



(** C6 on "foo bar": after a click at column 5 at time 100, the release
    of a second click there at time 100.2 selects offsets 4 to 7, the
    word "bar". *)
Lemma mouse_release_double_click_selects_word_witness :
  exists self',
    BufferControl.mouse_handler Examples.focused (501 # 5) (501 # 5)
      Examples.foo_bar_pressed_again (Examples.release 5 0)
    = (Handled, self', Examples.focused)
    /\ BufferControl._last_click_timestamp self' = Some (501 # 5)%Q
    /\ Buffer.selection_range (BufferControl.buffer self') = Some (4, 7).
Proof.
  destruct (mouse_release_double_click_selects_word Examples.focused
              Examples.foo_bar_pressed_again
              (Examples.recorded_lines Examples.foo_bar_pressed_again)
              (mkPoint 5 0) 100 (501 # 5) (501 # 5)
              ltac:(reflexivity) ltac:(reflexivity) ltac:(reflexivity)
              ltac:(unfold Qeq; simpl; lia) ltac:(reflexivity))
    as [self' [Hhandler [Htime [Hselection [Hcursor _]]]]].
  exists self'. split; [exact Hhandler|]. split; [exact Htime|].
  unfold Buffer.selection_range. rewrite Hselection, Hcursor. reflexivity.
Defined.

End mouse_selection_runs.

(** ** The content of a BufferControl *)

Section create_content_facts.
Context `{DocumentOps} `{BufferControl.Pipeline}.

(** What [create_content] builds once the document is chosen: the buffer
    is not touched, the processed-line function is recorded, and the
    content shows the document through that function. *)
Lemma create_content_of_spec layout self document width height :
  let gpl :=
    fst (BufferControl._create_get_processed_line_func self document
           width height) in
  let content :=
    fst (BufferControl.create_content_of layout self document width height) in
  let self' :=
    snd (BufferControl.create_content_of layout self document width height) in
  BufferControl.buffer self' = BufferControl.buffer self
  /\ BufferControl._last_get_processed_line self' = Some gpl
  /\ UIContent.line_count content = line_count document
  /\ UIContent.cursor_position content
     = mkPoint (source_to_display (gpl (cursor_position_row document))
                                  (cursor_position_col document))
               (cursor_position_row document)
  /\ forall i,
       UIContent.get_line content i = Ok (fragments (gpl i) ++ [frag "" " "]).
Proof.
  unfold BufferControl.create_content_of,
    BufferControl._create_get_processed_line_func,
    BufferControl._get_formatted_text_for_line_func.
  destruct (SimpleCache.get _ _ _) as [get_line cache]. cbn.
  destruct (current_control layout =? BufferControl.ident self)%nat;
    [|repeat split].
  destruct (match BufferControl.menu_position self with
            | Some f => f tt | None => None end) as [menu|].
  - destruct (translate_index_to_position _ menu). repeat split.
  - destruct (Buffer.complete_state (BufferControl.buffer self)) as [cs|];
      [destruct (translate_index_to_position _ _)|]; repeat split.
Qed.

(** C7. With preview enabled, a search control attached whose buffer
    holds a text that is not empty, and this control being the one that is
    searched, [create_content] renders the document of the search that
    the buffer derives from its own document: the content has that
    document's lines, processed, and its cursor. The buffer of the control
    after the call is the buffer before it: text, cursor position and
    selection are unchanged. The store of search states is unchanged
    too. *)
Theorem create_content_search_preview
    layout st self width height search_control ss :
  BufferControl.preview_search self = true ->
  BufferControl.search_buffer_control self = Some search_control ->
  Buffer.text (SearchBufferControl.buffer search_control) <> "" ->
  search_target_buffer_control layout = BufferControl.ident self ->
  st !! SearchBufferControl.searcher_search_state search_control = Some ss ->
  let preview :=
    document_for_search (BufferControl.buffer self)
      (SearchState.mk (Buffer.text (SearchBufferControl.buffer search_control))
         (SearchState.direction ss) (SearchState.ignore_case ss)) in
  let gpl :=
    fst (BufferControl._create_get_processed_line_func self preview
           width height) in
  exists content self',
    BufferControl.create_content layout st self width height false
    = (Ok content, self', st)
    /\ BufferControl.buffer self' = BufferControl.buffer self
    /\ Buffer.text (BufferControl.buffer self')
       = Buffer.text (BufferControl.buffer self)
    /\ Buffer.cursor_position (BufferControl.buffer self')
       = Buffer.cursor_position (BufferControl.buffer self)
    /\ Buffer.selection_state (BufferControl.buffer self')
       = Buffer.selection_state (BufferControl.buffer self)
    /\ UIContent.line_count content = line_count preview
    /\ UIContent.cursor_position content
       = mkPoint (source_to_display (gpl (cursor_position_row preview))
                                    (cursor_position_col preview))
                 (cursor_position_row preview)
    /\ forall i,
         UIContent.get_line content i
         = Ok (fragments (gpl i) ++ [frag "" " "]).
Proof.
  intros Hpreview Hcontrol Htext Htarget Hss preview gpl.
  pose proof (create_content_of_spec layout self preview width height)
    as (Hbuf & _ & Hcount & Hcursor & Hlines).
  destruct (BufferControl.create_content_of layout self preview width height)
    as [content self'] eqn:Hof.
  exists content, self'. split.
  - unfold BufferControl.create_content, BufferControl.preview_now,
      BufferControl.search_state.
    rewrite Hpreview, Hcontrol, Htarget, Nat.eqb_refl.
    destruct (String.eqb _ "") eqn:E; [apply String.eqb_eq in E; contradiction|].
    cbn. rewrite Hss. fold preview. rewrite Hof. reflexivity.
  - cbn in Hbuf, Hcount, Hcursor, Hlines.
    rewrite Hbuf. repeat split; assumption.
Qed.


End create_content_facts.

(** ** The search state of a control without search field *)

(** C10. On a control whose search control is absent, an access to
    [search_state] returns a reference that the store did not hold, to a
    new default state: empty text, forward, case-sensitive; the other
    objects are as they were. Whatever is then written through that
    reference, the next access returns another reference, again to a
    default state, and what was written stays where it was written. *)
Theorem search_state_fresh_default (self : BufferControl.t) (st : store) :
  BufferControl.search_buffer_control self = None ->
  forall r st', BufferControl.search_state self st = (r, st') ->
    st !! r = None
    /\ st' = <[r := SearchState.__init__]> st
    /\ st' !! r = Some (SearchState.mk "" FORWARD false)
    /\ (forall v r2 st2,
          BufferControl.search_state self (<[r := v]> st') = (r2, st2) ->
          r2 <> r
          /\ st2 !! r2 = Some (SearchState.mk "" FORWARD false)
          /\ st2 !! r = Some v).
Proof.
  intros Hnone r st' Haccess.
  unfold BufferControl.search_state in *. rewrite Hnone in *.
  unfold new_object in *. inversion Haccess; subst r st'. clear Haccess.
  pose proof (is_fresh (dom st)) as Hfresh.
  apply not_elem_of_dom in Hfresh.
  split; [exact Hfresh|]. split; [reflexivity|].
  split; [apply lookup_insert_eq|].
  intros v r2 st2 Hagain. inversion Hagain; subst r2 st2. clear Hagain.
  set (st1 := <[fresh (dom st) := v]> (<[fresh (dom st) := SearchState.__init__]> st)).
  pose proof (is_fresh (dom st1)) as Hfresh1.
  assert (Hin : fresh (dom st) ∈ dom st1).
  { apply elem_of_dom. unfold st1. rewrite lookup_insert_eq. eauto. }
  assert (Hne : fresh (dom st1) <> fresh (dom st)).
  { intros E. rewrite E in Hfresh1. contradiction. }
  split; [exact Hne|]. split; [apply lookup_insert_eq|].
  rewrite lookup_insert_ne by exact Hne. unfold st1. apply lookup_insert_eq.
Qed.

Section create_content_runs.
#[local] Existing Instance Reference.document_ops.
#[local] Existing Instance Reference.pipeline.

(** C7 on "foo bar" with "ba" in the search field: the content shows the
    cursor on the match at column 4, and the buffer keeps its cursor at
    offset 0 and has no selection. *)
Lemma create_content_search_preview_witness :
  exists content self',
    BufferControl.create_content Examples.searching Examples.search_store
      Examples.foo_bar_searched 80 None false
    = (Ok content, self', Examples.search_store)
    /\ BufferControl.buffer self' = Buffer.mk "foo bar" 0 None None
    /\ UIContent.cursor_position content = mkPoint 4 0.
Proof.
  destruct (create_content_search_preview Examples.searching
              Examples.search_store Examples.foo_bar_searched 80 None
              Examples.search_field SearchState.__init__
              ltac:(reflexivity) ltac:(reflexivity) ltac:(discriminate)
              ltac:(reflexivity) ltac:(reflexivity))
    as [content [self' [Hcreate [Hbuffer [_ [_ [_ [_ [Hcursor _]]]]]]]]].
  exists content, self'. split; [exact Hcreate|].
  split; [rewrite Hbuffer; reflexivity|].
  rewrite Hcursor. reflexivity.
Defined.


End create_content_runs.

(** C10 on a control without search field and an empty store: the access
    creates the default state at reference 0. *)
Lemma search_state_fresh_default_witness :
  BufferControl.search_state Examples.foo_bar ∅
  = (0%nat, {[ 0%nat := SearchState.__init__ ]})
  /\ (∅ : store) !! 0%nat = None.
Proof.
  split; [reflexivity|].
  exact (proj1 (search_state_fresh_default Examples.foo_bar ∅
                  ltac:(reflexivity) 0%nat _ ltac:(reflexivity))).
Defined.

(** ** Cursor and menu markers *)

Lemma prefix_app needle : forall s,
  String.prefix needle s = true <-> exists b, s = needle +:+ b.
Proof.
  induction needle as [|a needle IH]; intros s.
  - split; [intros _; now exists s | intros _; now destruct s].
  - destruct s as [|c s]; simpl.
    + split; [discriminate | intros [b Hb]; discriminate].
    + destruct (ascii_dec a c) as [->|Hne].
      * rewrite IH. split; intros [b Hb]; exists b;
          [now rewrite Hb | now inversion Hb].
      * split; [discriminate | intros [b Hb]; inversion Hb; congruence].
Qed.

(** [contains] is the substring test. *)
Lemma contains_spec needle s :
  contains needle s = true <-> exists a b, s = a +:+ needle +:+ b.
Proof.
  induction s as [|c s IH].
  - change (contains needle "") with (String.prefix needle "" || false).
    rewrite orb_false_r, prefix_app. split.
    + intros [b Hb]. now exists "", b.
    + intros [a [b Hab]]. destruct a; [now exists b | discriminate].
  - change (contains needle (String c s))
      with (String.prefix needle (String c s) || contains needle s).
    rewrite orb_true_iff, prefix_app, IH. split.
    + intros [[b Hb] | [a [b Hab]]].
      * now exists "", b.
      * exists (String c a), b. simpl. now rewrite Hab.
    + intros [a [b Hab]]. destruct a as [|c' a].
      * left. now exists b.
      * right. exists a, b. now inversion Hab.
Qed.

Lemma scan_line_some marker : forall line x0 x,
  FormattedTextControl.scan_line marker line x0 = Some x ->
  exists before item after,
    line = before ++ item :: after
    /\ has_marker marker item
    /\ Forall (fun item' => ~ has_marker marker item') before
    /\ x = x0 + text_length before.
Proof.
  induction line as [|item rest IH]; intros x0 x Hscan; simpl in Hscan;
    [discriminate|].
  destruct (contains marker (Fragment.style_str item)) eqn:E.
  - inversion Hscan; subst. exists [], item, rest.
    repeat split; [exact E | constructor | simpl; lia].
  - destruct (IH _ _ Hscan) as (before & item' & after & -> & Hm & Hb & ->).
    exists (item :: before), item', after.
    repeat split; [exact Hm | | simpl; lia].
    constructor; [unfold has_marker; congruence | exact Hb].
Qed.

Lemma scan_line_none marker : forall line x0,
  FormattedTextControl.scan_line marker line x0 = None ->
  Forall (fun item => ~ has_marker marker item) line.
Proof.
  induction line as [|item rest IH]; intros x0 Hscan; [constructor|].
  simpl in Hscan.
  destruct (contains marker (Fragment.style_str item)) eqn:E; [discriminate|].
  constructor; [unfold has_marker; congruence | eapply IH, Hscan].
Qed.

Lemma scan_line_complete marker item after : forall before x0,
  has_marker marker item ->
  Forall (fun item' => ~ has_marker marker item') before ->
  FormattedTextControl.scan_line marker (before ++ item :: after) x0
  = Some (x0 + text_length before).
Proof.
  induction before as [|b before IH]; intros x0 Hm Hb; simpl.
  - unfold has_marker in Hm. rewrite Hm. f_equal. lia.
  - inversion Hb as [|? ? Hnb Hb']; subst. unfold has_marker in Hnb.
    destruct (contains marker (Fragment.style_str b)); [contradiction|].
    rewrite IH by assumption. f_equal. lia.
Qed.

Lemma scan_line_no_marker marker : forall line x0,
  Forall (fun item => ~ has_marker marker item) line ->
  FormattedTextControl.scan_line marker line x0 = None.
Proof.
  induction line as [|item rest IH]; intros x0 Hno; [reflexivity|].
  inversion Hno as [|? ? Hn Hrest]; subst. simpl. unfold has_marker in Hn.
  destruct (contains marker (Fragment.style_str item)); [contradiction|].
  now apply IH.
Qed.

Lemma scan_lines_some marker : forall fragment_lines y0 p,
  FormattedTextControl.scan_lines marker fragment_lines y0 = Some p ->
  first_marker marker fragment_lines (mkPoint (x p) (y p - y0)).
Proof.
  induction fragment_lines as [|line rest IH]; intros y0 p Hscan;
    simpl in Hscan; [discriminate|].
  destruct (FormattedTextControl.scan_line marker line 0) as [x1|] eqn:E.
  - inversion Hscan; subst. simpl.
    destruct (scan_line_some _ _ _ _ E)
      as (before & item & after & -> & Hm & Hb & ->).
    exists 0%nat, (before ++ item :: after), before, item, after.
    simpl. repeat split; [lia | exact Hm | exact Hb | constructor].
  - destruct (IH _ _ Hscan)
      as (row & l & before & item & after & Hy & Hl & -> & Hm & Hb & Hx & Hno).
    simpl in Hy, Hx.
    exists (S row), (before ++ item :: after), before, item, after.
    simpl. repeat split; [lia | exact Hl | exact Hm | exact Hb | exact Hx |].
    constructor; [eapply scan_line_none, E | exact Hno].
Qed.

Lemma scan_lines_none marker : forall fragment_lines y0,
  FormattedTextControl.scan_lines marker fragment_lines y0 = None ->
  no_marker marker fragment_lines.
Proof.
  induction fragment_lines as [|line rest IH]; intros y0 Hscan; [constructor|].
  simpl in Hscan.
  destruct (FormattedTextControl.scan_line marker line 0) eqn:E; [discriminate|].
  constructor; [eapply scan_line_none, E | eapply IH, Hscan].
Qed.

Lemma scan_lines_complete marker fragment_lines p y0 :
  first_marker marker fragment_lines p ->
  FormattedTextControl.scan_lines marker fragment_lines y0
  = Some (mkPoint (x p) (y0 + y p)).
Proof.
  intros (row & l & before & item & after & Hy & Hl & -> & Hm & Hb & Hx & Hno).
  rewrite Hy, Hx. clear Hy Hx p.
  revert fragment_lines y0 Hl Hno.
  induction row as [|row IH]; intros [|line rest] y0 Hl Hno;
    try discriminate; simpl in *.
  - inversion Hl; subst line.
    rewrite scan_line_complete by assumption. do 2 f_equal; lia.
  - inversion Hno as [|? ? Hline Hrest]; subst.
    rewrite (scan_line_no_marker _ _ _ Hline).
    rewrite (IH rest (y0 + 1) Hl Hrest). do 2 f_equal; lia.
Qed.

Lemma scan_lines_no_marker marker : forall fragment_lines y0,
  no_marker marker fragment_lines ->
  FormattedTextControl.scan_lines marker fragment_lines y0 = None.
Proof.
  induction fragment_lines as [|line rest IH]; intros y0 Hno; [reflexivity|].
  inversion Hno as [|? ? Hline Hrest]; subst. simpl.
  rewrite (scan_line_no_marker _ _ _ Hline). now apply IH.
Qed.

(** The scan from row 0 finds exactly the first marker. *)
Lemma scan_lines_first_marker marker fragment_lines p :
  FormattedTextControl.scan_lines marker fragment_lines 0 = Some p
  <-> first_marker marker fragment_lines p.
Proof.
  split.
  - intros Hscan. apply scan_lines_some in Hscan.
    destruct p as [px py]. simpl in Hscan. now rewrite Z.sub_0_r in Hscan.
  - intros Hfirst. rewrite (scan_lines_complete _ _ _ 0 Hfirst).
    destruct p as [px py]. reflexivity.
Qed.

Section cache_facts.
Context {K V : Type} `{EqDecision K}.

Lemma SimpleCache_find_Forall (P : K * V -> Prop) key : forall d v,
  Forall P d -> SimpleCache.find key d = Some v -> P (key, v).
Proof.
  induction d as [|[k v'] d IH]; intros v HP Hfind; simpl in Hfind;
    [discriminate|].
  inversion HP as [|? ? Hhead Htail]; subst.
  destruct (decide (k = key)) as [->|Hne].
  - inversion Hfind; subst. exact Hhead.
  - now apply IH.
Qed.

(** [get] keeps a property of the entries that the computed value has
    under the key, and what it returns has the property under the key. *)
Lemma SimpleCache_get_Forall (P : K * V -> Prop) key getter_func
    (c : SimpleCache.t K V) :
  Forall P (SimpleCache.data c) ->
  P (key, getter_func tt) ->
  P (key, fst (SimpleCache.get key getter_func c))
  /\ Forall P (SimpleCache.data (snd (SimpleCache.get key getter_func c))).
Proof.
  intros HP Hnew. unfold SimpleCache.get.
  destruct (SimpleCache.find key (SimpleCache.data c)) as [v|] eqn:E; simpl.
  - split; [eapply SimpleCache_find_Forall; eassumption | exact HP].
  - split; [exact Hnew|].
    assert (Hall : Forall P (SimpleCache.data c ++ [(key, getter_func tt)])).
    { apply Forall_app. split; [exact HP | repeat constructor; exact Hnew]. }
    destruct (SimpleCache.maxsize c <? _)%nat; [|exact Hall].
    destruct (SimpleCache.data c ++ [(key, getter_func tt)]) as [|e d];
      [constructor|].
    simpl. now inversion Hall.
Qed.

End cache_facts.

Section create_content_markers.
Context `{TextUtils}.

Lemma content_cache_ok_init (maxsize : nat) :
  content_cache_ok (SimpleCache.__init__ maxsize).
Proof. constructor. Qed.

(** Fetching the fragments touches the fragment cache only. *)
Lemma _get_formatted_text_cached_frame rc self :
  let self1 := snd (FormattedTextControl._get_formatted_text_cached rc self) in
  FormattedTextControl._content_cache self1
  = FormattedTextControl._content_cache self
  /\ FormattedTextControl.get_cursor_position self1
     = FormattedTextControl.get_cursor_position self.
Proof.
  unfold FormattedTextControl._get_formatted_text_cached.
  destruct (SimpleCache.get _ _ _) as [fragments cache]. now split.
Qed.

(** C8, amended. The cursor position of the content of a
    [FormattedTextControl] is what the control's own
    [get_cursor_position] function returns whenever the control was given
    one (the origin when that is None): the markers are not consulted for
    the cursor then. Only a control without such a function takes the
    cursor from the fragments: the (column, row) at which a style holding
    '[SetCursorPosition]' is first encountered in the fragment lines, the
    column being the length of the text before the fragment in its row,
    and the origin when no style holds the marker. The menu position is
    in every case the (column, row) at which '[SetMenuPosition]' is first
    encountered, and absent when no style holds that marker. This holds
    of a new content and of one taken from the content cache, whose
    entries keep the property. *)
Theorem create_content_marker_positions rc self width height :
  content_cache_ok (FormattedTextControl._content_cache self) ->
  let fragments :=
    fst (FormattedTextControl._get_formatted_text_cached rc self) in
  let fragment_lines := map (map strip_handler) (split_lines fragments) in
  let content :=
    fst (FormattedTextControl.create_content rc self width height) in
  let self' :=
    snd (FormattedTextControl.create_content rc self width height) in
  (forall f, FormattedTextControl.get_cursor_position self = Some f ->
     UIContent.cursor_position content = default (mkPoint 0 0) (f tt))
  /\ (FormattedTextControl.get_cursor_position self = None ->
      (forall p, first_marker "[SetCursorPosition]" fragment_lines p ->
         UIContent.cursor_position content = p)
      /\ (no_marker "[SetCursorPosition]" fragment_lines ->
          UIContent.cursor_position content = mkPoint 0 0))
  /\ (forall p, first_marker "[SetMenuPosition]" fragment_lines p ->
        UIContent.menu_position content = Some p)
  /\ (no_marker "[SetMenuPosition]" fragment_lines ->
      UIContent.menu_position content = None)
  /\ content_cache_ok (FormattedTextControl._content_cache self')
  /\ FormattedTextControl._fragments self' = Some fragments.
Proof.
  intros Hcache fragments fragment_lines content self'.
  pose proof (_get_formatted_text_cached_frame rc self) as [Hcc Hgcp].
  unfold content, self', FormattedTextControl.create_content.
  unfold fragment_lines, fragments. clear content self' fragment_lines fragments.
  destruct (FormattedTextControl._get_formatted_text_cached rc self)
    as [fragments self1].
  cbn [fst snd] in *.
  cbn [FormattedTextControl.set_caches FormattedTextControl._content_cache
       FormattedTextControl.get_cursor_position
       FormattedTextControl.show_cursor FormattedTextControl._fragment_cache
       FormattedTextControl._fragments].
  rewrite Hcc, Hgcp.
  set (fragment_lines := map (map strip_handler) (split_lines fragments)).
  set (cursor := match FormattedTextControl.get_cursor_position self with
                 | Some f => f tt
                 | None => FormattedTextControl.scan_lines "[SetCursorPosition]"
                             fragment_lines 0
                 end).
  set (get_content := fun _ : unit => UIContent.__init__ _ _ _ _ _).
  destruct (SimpleCache_get_Forall content_positions_ok
              (fragments, width, cursor) get_content
              (FormattedTextControl._content_cache self) Hcache)
    as [[Hcursor Hmenu] Hkept].
  { split; reflexivity. }
  fold fragment_lines in Hmenu.
  revert Hcursor Hmenu Hkept.
  destruct (SimpleCache.get (fragments, width, cursor) get_content
              (FormattedTextControl._content_cache self)) as [content cache].
  cbn [fst snd FormattedTextControl.set_caches
       FormattedTextControl._content_cache FormattedTextControl._fragments].
  intros Hcursor Hmenu Hkept.
  split; [|split; [|split; [|split; [|split]]]].
  - intros f Hf. rewrite Hcursor. unfold cursor. now rewrite Hf.
  - intros Hnone. split.
    + intros p Hp. rewrite Hcursor. unfold cursor. rewrite Hnone.
      apply scan_lines_first_marker in Hp. now rewrite Hp.
    + intros Hno. rewrite Hcursor. unfold cursor. rewrite Hnone.
      now rewrite (scan_lines_no_marker _ _ 0 Hno).
  - intros p Hp. rewrite Hmenu. now apply scan_lines_first_marker.
  - intros Hno. rewrite Hmenu. now apply scan_lines_no_marker.
  - exact Hkept.
  - reflexivity.
Qed.

(** Every list of fragment lines has a first marker or none. *)
Lemma first_marker_or_none marker fragment_lines :
  (exists p, first_marker marker fragment_lines p)
  \/ no_marker marker fragment_lines.
Proof.
  destruct (FormattedTextControl.scan_lines marker fragment_lines 0)
    as [p|] eqn:E.
  - left. exists p. now apply scan_lines_first_marker.
  - right. eapply scan_lines_none, E.
Qed.

End create_content_markers.

Section create_content_markers_runs.
#[local] Existing Instance Reference.text_utils.

(** C8, a control on which the claim fails: the fragments hold
    '[SetCursorPosition]' at column 2 of row 0, first of all fragments,
    and the control was given a [get_cursor_position] function that
    returns column 5 of row 6; the cursor of the content is at column 5
    of row 6, not where the marker is. *)
Lemma create_content_function_over_marker :
  let fragment_lines :=
    map (map strip_handler)
      (split_lines
         (fst (FormattedTextControl._get_formatted_text_cached 7
                 Examples.marked_with_function))) in
  let content :=
    fst (FormattedTextControl.create_content 7 Examples.marked_with_function
           80 None) in
  first_marker "[SetCursorPosition]" fragment_lines (mkPoint 2 0)
  /\ UIContent.cursor_position content = mkPoint 5 6
  /\ UIContent.cursor_position content <> mkPoint 2 0.
Proof.
  split; [|split].
  - apply scan_lines_first_marker. reflexivity.
  - reflexivity.
  - discriminate.
Qed.

(** The amended C8 on fragments that mark the cursor after "ab" in row 0
    and the menu at the start of row 1, in a control without
    [get_cursor_position] function. *)
Lemma create_content_marker_positions_witness :
  let content :=
    fst (FormattedTextControl.create_content 7 Examples.marked 80 None) in
  UIContent.cursor_position content = mkPoint 2 0
  /\ UIContent.menu_position content = Some (mkPoint 0 1).
Proof.
  intros content.
  destruct (create_content_marker_positions 7 Examples.marked 80 None
              (content_cache_ok_init 18))
    as (_ & Hcursor & Hmenu & _).
  destruct (Hcursor ltac:(reflexivity)) as [Hfound _].
  split.
  - apply Hfound. apply scan_lines_first_marker. reflexivity.
  - apply Hmenu. apply scan_lines_first_marker. reflexivity.
Defined.

End create_content_markers_runs.

(** * Further properties *)

(** ** Heights *)

Section more_heights.
Context `{TextUtils}.

(** X1. [get_height_for_text] at width zero is the large height; at a
    positive width it is the ceiling of the text width over the width,
    and at least one; at a negative width it is one. *)
Theorem get_height_for_text_cases text width :
  (width = 0 -> UIContent.get_height_for_text text width = UIContent.very_big)
  /\ (0 < width ->
      UIContent.get_height_for_text text width
      = Z.max 1 (ceil_div (get_cwidth text) width))
  /\ (width < 0 -> 0 <= get_cwidth text ->
      UIContent.get_height_for_text text width = 1).
Proof.
  split; [|split].
  - intros ->. reflexivity.
  - apply get_height_for_text_ceil.
  - intros Hw Hpos. unfold UIContent.get_height_for_text.
    destruct (width =? 0) eqn:E; [apply Z.eqb_eq in E; lia|].
    pose proof (Z.div_mod (get_cwidth text) width ltac:(lia)) as Hdm.
    pose proof (Z.mod_neg_bound (get_cwidth text) width Hw) as Hmod.
    destruct (get_cwidth text mod width =? 0) eqn:E'.
    + apply Z.eqb_eq in E'. nia.
    + apply Z.eqb_neq in E'. nia.
Qed.

(** X2. Once [get_height_for_line] has returned a height for a line and
    a width, every later call in the same render pass for that line and
    width returns the same height and leaves the content as it is,
    whatever prefix function it is given. *)
Theorem get_height_for_line_again fuel rc self i w prefix height self' :
  UIContent.get_height_for_line fuel rc self i w prefix
  = Some (Ok height, self') ->
  forall fuel' prefix',
    UIContent.get_height_for_line fuel' rc self' i w prefix'
    = Some (Ok height, self').
Proof.
  intros Hcall fuel' prefix'. apply get_height_for_line_hit.
  unfold UIContent.get_height_for_line in Hcall.
  destruct (UIContent._line_heights self !! (rc, i, w)) as [h|] eqn:Hlook.
  - inversion Hcall; subst. exact Hlook.
  - destruct (w =? 0).
    + inversion Hcall; subst. apply lookup_insert_eq.
    + destruct (UIContent.get_line self i) as [fragments|e]; [|discriminate].
      destruct (UIContent.wrap_loop _ _ _ _ _ _) as [h|]; [|discriminate].
      inversion Hcall; subst. apply lookup_insert_eq.
Qed.

(** X3. A call of [get_height_for_line] changes nothing of the content
    but the height cache, and of the cache nothing but the entry of
    (render pass, line, width): the heights stored for other keys stay,
    and no stored height is replaced. *)
Theorem get_height_for_line_frame fuel rc self i w prefix r self' :
  UIContent.get_height_for_line fuel rc self i w prefix = Some (r, self') ->
  UIContent.get_line self' = UIContent.get_line self
  /\ UIContent.line_count self' = UIContent.line_count self
  /\ UIContent.cursor_position self' = UIContent.cursor_position self
  /\ UIContent.menu_position self' = UIContent.menu_position self
  /\ UIContent.show_cursor self' = UIContent.show_cursor self
  /\ (forall key, key <> (rc, i, w) ->
        UIContent._line_heights self' !! key
        = UIContent._line_heights self !! key)
  /\ (forall key h, UIContent._line_heights self !! key = Some h ->
        UIContent._line_heights self' !! key = Some h).
Proof.
  intros Hcall.
  assert (Hcases : self' = self
            \/ UIContent._line_heights self !! (rc, i, w) = None /\
               exists h, self' = with_height self (rc, i, w) h).
  { unfold UIContent.get_height_for_line in Hcall.
    destruct (UIContent._line_heights self !! (rc, i, w)) as [h|] eqn:Hlook.
    - left. now inversion Hcall.
    - destruct (w =? 0).
      + right. split; [reflexivity|]. eexists. now inversion Hcall.
      + destruct (UIContent.get_line self i) as [fragments|e].
        * destruct (UIContent.wrap_loop _ _ _ _ _ _) as [h|]; [|discriminate].
          right. split; [reflexivity|]. eexists. now inversion Hcall.
        * left. now inversion Hcall. }
  destruct Hcases as [-> | [Hmiss [h ->]]]; [now repeat split|].
  repeat split; simpl.
  - intros key Hkey. now apply lookup_insert_ne.
  - intros key h' Hkey.
    destruct (decide (key = (rc, i, w))) as [->|Hne]; [congruence|].
    rewrite lookup_insert_ne by congruence. exact Hkey.
Qed.

(** X4. When the height of a line is not stored and the width is not
    zero, an error that [get_line] raises for the line comes out of
    [get_height_for_line], and nothing is stored. *)
Theorem get_height_for_line_raises fuel rc self i w prefix e :
  UIContent._line_heights self !! (rc, i, w) = None ->
  w <> 0 ->
  UIContent.get_line self i = Raise e ->
  UIContent.get_height_for_line fuel rc self i w prefix = Some (Raise e, self).
Proof.
  intros Hmiss Hw Hline. unfold UIContent.get_height_for_line.
  rewrite Hmiss.
  destruct (w =? 0) eqn:E; [apply Z.eqb_eq in E; contradiction|].
  now rewrite Hline.
Qed.

Lemma spec_wrap_at_least p i w h tw r :
  spec_wrap p i w h tw r -> 1 <= h -> 1 <= r.
Proof.
  induction 1 as [| |h tw r _ _ _ IH]; intros Hh;
    [exact Hh | unfold UIContent.very_big; lia | apply IH; lia].
Qed.

(** X5. A height that [get_height_for_line] computes is at least one. *)
Theorem get_height_for_line_at_least_one fuel rc self i w prefix height self' :
  UIContent._line_heights self !! (rc, i, w) = None ->
  UIContent.get_height_for_line fuel rc self i w prefix
  = Some (Ok height, self') ->
  1 <= height.
Proof.
  intros Hmiss Hcall. unfold UIContent.get_height_for_line in Hcall.
  rewrite Hmiss in Hcall. destruct (w =? 0).
  - inversion Hcall. unfold UIContent.very_big. lia.
  - destruct (UIContent.get_line self i) as [fragments|e]; [|discriminate].
    destruct (UIContent.wrap_loop _ _ _ _ _ _) as [h|] eqn:Hloop; [|discriminate].
    inversion Hcall; subst. apply wrap_loop_sound in Hloop.
    eapply spec_wrap_at_least; [exact Hloop | lia].
Qed.

(** X7. At a negative width, with widths of text and prefixes that are
    not negative, the height is the large height: the text never fits and
    neither does the first continuation prefix. *)
Theorem get_height_for_line_negative_width fuel rc self i w prefix fragments :
  let p := default UIContent.no_prefix prefix in
  w < 0 ->
  UIContent._line_heights self !! (rc, i, w) = None ->
  UIContent.get_line self i = Ok fragments ->
  0 <= get_cwidth (fragment_list_to_text fragments) + prefix_width p w i false ->
  0 <= prefix_width p w i true ->
  UIContent.get_height_for_line (S fuel) rc self i w prefix
  = Some (Ok UIContent.very_big,
          with_height self (rc, i, w) UIContent.very_big).
Proof.
  intros p Hw Hmiss Hline Htext Hprefix.
  rewrite (get_height_for_line_miss (S fuel) rc self i w prefix fragments
             Hmiss ltac:(lia) Hline).
  fold p. simpl. fold (prefix_width p w i true).
  destruct (_ + _ >? w) eqn:E;
    [|rewrite Z.gtb_ltb in E; apply Z.ltb_ge in E; lia].
  destruct (prefix_width p w i true >? w) eqn:E';
    [reflexivity | rewrite Z.gtb_ltb in E'; apply Z.ltb_ge in E'; lia].
Qed.

Lemma spec_wrap_no_prefix_height p i k w :
  0 < k ->
  prefix_width p k i true = 0 ->
  spec_wrap p i k 1 w (Z.max 1 (ceil_div w k)).
Proof.
  intros Hk Hp.
  pose proof (proj1 (ceil_div_spec w k (ceil_div w k) Hk) eq_refl) as Hceil.
  replace (Z.max 1 (ceil_div w k))
    with (1 + Z.of_nat (Z.to_nat (ceil_div w k - 1))) by lia.
  apply spec_wrap_no_prefix; [exact Hk | exact Hp | |].
  - destruct (Z_le_gt_dec (ceil_div w k) 1) as [Hc1|Hc1].
    + replace (Z.of_nat (Z.to_nat (ceil_div w k - 1))) with 0 by lia. nia.
    + rewrite Z2Nat.id by lia.
      replace (ceil_div w k - 1 + 1) with (ceil_div w k) by lia. lia.
  - intros Hpos. rewrite Z2Nat.id by lia. lia.
Qed.

(** X8. Without prefix and at a positive width, [get_height_for_line]
    computes what [get_height_for_text] gives for the text of the line:
    the two height functions agree. *)
Theorem get_height_for_line_is_height_for_text rc self i k fragments :
  0 < k ->
  UIContent._line_heights self !! (rc, i, k) = None ->
  UIContent.get_line self i = Ok fragments ->
  get_cwidth (fragment_list_to_text (to_formatted_text (FragmentList []) "")) = 0 ->
  let height :=
    UIContent.get_height_for_text (fragment_list_to_text fragments) k in
  exists fuel, forall fuel', (fuel <= fuel')%nat ->
    UIContent.get_height_for_line fuel' rc self i k None
    = Some (Ok height, with_height self (rc, i, k) height).
Proof.
  intros Hk Hmiss Hline Hempty height.
  assert (Hp : forall b, prefix_width UIContent.no_prefix k i b = 0)
    by (intros b; exact Hempty).
  unfold height. rewrite (get_height_for_text_ceil _ k Hk).
  destruct (wrap_loop_complete _ _ _ _ _ _
              (spec_wrap_no_prefix_height UIContent.no_prefix i k
                 (get_cwidth (fragment_list_to_text fragments)) Hk (Hp true)))
    as [fuel Hfuel].
  exists fuel. intros fuel' Hle.
  rewrite (get_height_for_line_miss fuel' rc self i k None fragments
             Hmiss ltac:(lia) Hline).
  simpl. rewrite Hp, Z.add_0_r. now rewrite (Hfuel fuel' Hle).
Qed.

End more_heights.

Section more_heights_runs.
#[local] Existing Instance Reference.text_utils.

Lemma get_height_for_text_cases_witness :
  UIContent.get_height_for_text "aaaaaaaaaa" 0 = UIContent.very_big
  /\ UIContent.get_height_for_text "aaaaaaaaaa" 4 = 3
  /\ UIContent.get_height_for_text "aaaaaaaaaa" (-4) = 1.
Proof.
  destruct (get_height_for_text_cases "aaaaaaaaaa" 0) as [Hzero _].
  destruct (get_height_for_text_cases "aaaaaaaaaa" 4) as [_ [Hpos _]].
  destruct (get_height_for_text_cases "aaaaaaaaaa" (-4)) as [_ [_ Hneg]].
  split; [exact (Hzero eq_refl)|]. split.
  - exact (Hpos ltac:(lia)).
  - apply Hneg; [lia | vm_compute; discriminate].
Defined.

(** After the ten cells were measured without prefix, a call with a
    prefix of two cells returns the stored 2. *)
Lemma get_height_for_line_again_witness :
  UIContent.get_height_for_line 0 7 Examples.ten_cells_measured 0 5
    (Some Examples.two_cell_prefix)
  = Some (Ok 2, Examples.ten_cells_measured).
Proof.
  apply (get_height_for_line_again 2 7 Examples.ten_cells 0 5 None 2
           Examples.ten_cells_measured).
  reflexivity.
Defined.

Lemma get_height_for_line_frame_witness :
  UIContent.line_count Examples.ten_cells_measured
  = UIContent.line_count Examples.ten_cells
  /\ UIContent._line_heights Examples.ten_cells_measured !! (7, 0, 4)
     = UIContent._line_heights Examples.ten_cells !! (7, 0, 4).
Proof.
  assert (Hcall : UIContent.get_height_for_line 2 7 Examples.ten_cells 0 5 None
                  = Some (Ok 2, Examples.ten_cells_measured)) by reflexivity.
  destruct (get_height_for_line_frame _ _ _ _ _ _ _ _ Hcall)
    as (_ & Hcount & _ & _ & _ & Hother & _).
  split; [exact Hcount|]. apply Hother. discriminate.
Defined.

(** Line 5 of a content of two lines: indexing the list of lines raises
    [IndexError], and so does measuring that line. *)
Lemma get_height_for_line_raises_witness :
  let content :=
    fst (FormattedTextControl.create_content 7 Examples.two_lines 80 None) in
  UIContent.get_height_for_line 3 7 content 5 80 None
  = Some (Raise IndexError, content).
Proof.
  intros content.
  apply (get_height_for_line_raises 3 7 content 5 80 None IndexError);
    [reflexivity | lia | reflexivity].
Defined.

Lemma get_height_for_line_at_least_one_witness :
  UIContent.get_height_for_line 5 7 Examples.ten_cells 0 5
    (Some Examples.two_cell_prefix)
  = Some (Ok 4, with_height Examples.ten_cells (7, 0, 5) 4)
  /\ 1 <= 4.
Proof.
  split; [reflexivity|].
  apply (get_height_for_line_at_least_one 5 7 Examples.ten_cells 0 5
           (Some Examples.two_cell_prefix) 4
           (with_height Examples.ten_cells (7, 0, 5) 4));
    reflexivity.
Defined.

(** Ten cells at width 2 with a prefix of two cells: a thousand rounds of
    the loop are not enough. *)
Lemma get_height_for_line_diverges_witness :
  UIContent.get_height_for_line 1000 7 Examples.ten_cells 0 2
    (Some Examples.two_cell_prefix)
  = None.
Proof.
  apply (get_height_for_line_diverges 1000 7 Examples.ten_cells 0 2
           (Some Examples.two_cell_prefix) [frag "" "aaaaaaaaaa"]);
    [reflexivity | lia | reflexivity | reflexivity | vm_compute; reflexivity].
Defined.

Lemma get_height_for_line_negative_width_witness :
  UIContent.get_height_for_line 1 7 Examples.ten_cells 0 (-3) None
  = Some (Ok UIContent.very_big,
          with_height Examples.ten_cells (7, 0, -3) UIContent.very_big).
Proof.
  apply (get_height_for_line_negative_width 0 7 Examples.ten_cells 0 (-3) None
           [frag "" "aaaaaaaaaa"]);
    [lia | reflexivity | reflexivity | vm_compute; discriminate
     | vm_compute; discriminate].
Defined.

Lemma get_height_for_line_is_height_for_text_witness :
  exists fuel,
    UIContent.get_height_for_line fuel 7 Examples.ten_cells 0 4 None
    = Some (Ok (UIContent.get_height_for_text "aaaaaaaaaa" 4),
            with_height Examples.ten_cells (7, 0, 4)
              (UIContent.get_height_for_text "aaaaaaaaaa" 4)).
Proof.
  destruct (get_height_for_line_is_height_for_text 7 Examples.ten_cells 0 4
              [frag "" "aaaaaaaaaa"] ltac:(lia) ltac:(reflexivity)
              ltac:(reflexivity) ltac:(reflexivity)) as [fuel Hfuel].
  exists fuel. apply (Hfuel fuel). lia.
Defined.

End more_heights_runs.

(** ** Python lists and the bounded cache *)

Lemma py_index_in_range {A : Type} (l : list A) (i : Z) :
  0 <= i < Z.of_nat (length l) ->
  exists a, py_index l i = Ok a /\ l !! Z.to_nat i = Some a.
Proof.
  intros Hi. unfold py_index. cbv zeta.
  destruct (i <? 0) eqn:E; [apply Z.ltb_lt in E; lia|].
  destruct (0 <=? i) eqn:E1; [|apply Z.leb_gt in E1; lia].
  destruct (i <? Z.of_nat (length l)) eqn:E2; [|apply Z.ltb_ge in E2; lia].
  simpl. destruct (l !! Z.to_nat i) as [a|] eqn:Hl; [now exists a|].
  apply lookup_ge_None in Hl. lia.
Qed.

Lemma py_index_elem {A : Type} (l : list A) (i : Z) (a : A) :
  py_index l i = Ok a -> a ∈ l.
Proof.
  unfold py_index. cbv zeta.
  destruct (_ && _); [|discriminate].
  destruct (l !! _) as [b|] eqn:Hl; [|discriminate].
  intros Hi. inversion Hi; subst. eapply list_elem_of_lookup_2, Hl.
Qed.

Section more_cache_facts.
Context {K V : Type} `{EqDecision K}.

Lemma SimpleCache_find_app key (d1 d2 : list (K * V)) :
  SimpleCache.find key (d1 ++ d2)
  = match SimpleCache.find key d1 with
    | Some v => Some v
    | None => SimpleCache.find key d2
    end.
Proof.
  induction d1 as [|[k v] d1 IH]; [reflexivity|]. simpl.
  destruct (decide (k = key)); [reflexivity | exact IH].
Qed.

(** In a cache that keeps at least one entry, what [get] returns is what
    the cache then holds under the key. *)
Lemma SimpleCache_get_find key getter_func (c : SimpleCache.t K V) :
  (0 < SimpleCache.maxsize c)%nat ->
  SimpleCache.find key (SimpleCache.data (snd (SimpleCache.get key getter_func c)))
  = Some (fst (SimpleCache.get key getter_func c)).
Proof.
  intros Hmax. unfold SimpleCache.get.
  destruct (SimpleCache.find key (SimpleCache.data c)) as [v|] eqn:E;
    [exact E|].
  cbn [fst snd SimpleCache.data].
  assert (Hnew : forall d, SimpleCache.find key d = None ->
            SimpleCache.find key (d ++ [(key, getter_func tt)])
            = Some (getter_func tt)).
  { intros d Hd. rewrite SimpleCache_find_app, Hd. simpl.
    now destruct (decide (key = key)). }
  destruct (SimpleCache.data c) as [|[k v] d] eqn:Hdata.
  - simpl. destruct (SimpleCache.maxsize c <? 1)%nat eqn:E';
      [apply Nat.ltb_lt in E'; lia|].
    apply (Hnew []). reflexivity.
  - simpl in E. destruct (decide (k = key)); [discriminate|].
    destruct (SimpleCache.maxsize c <? _)%nat.
    + simpl. now apply Hnew.
    + apply (Hnew ((k, v) :: d)). simpl.
      destruct (decide (k = key)); [contradiction | exact E].
Qed.

Lemma SimpleCache_get_hit key getter_func (c : SimpleCache.t K V) v :
  SimpleCache.find key (SimpleCache.data c) = Some v ->
  SimpleCache.get key getter_func c = (v, c).
Proof. intros Hfind. unfold SimpleCache.get. now rewrite Hfind. Qed.

End more_cache_facts.

Lemma text_length_nonneg line : 0 <= text_length line.
Proof.
  induction line as [|item line IH]; simpl; [lia|]. unfold len. lia.
Qed.

Lemma text_length_app l1 l2 :
  text_length (l1 ++ l2) = text_length l1 + text_length l2.
Proof. induction l1 as [|item l1 IH]; simpl; lia. Qed.

Lemma str_split_not_empty s : forall acc, str_split acc s <> [].
Proof.
  induction s as [|c s IH]; intros acc; simpl; [discriminate|].
  destruct (Ascii.eqb c "010"); [discriminate | apply IH].
Qed.

Lemma foldl_max_bounds (l : list Z) : forall a,
  a <= foldl Z.max a l
  /\ (forall b, b ∈ l -> b <= foldl Z.max a l)
  /\ (foldl Z.max a l = a \/ foldl Z.max a l ∈ l).
Proof.
  induction l as [|b l IH]; intros a; simpl.
  - split; [lia|]. split; [intros b Hb; inversion Hb | now left].
  - destruct (IH (Z.max a b)) as (Hge & Hall & Hin).
    split; [lia|]. split.
    + intros c Hc. apply elem_of_cons in Hc as [->|Hc]; [lia | now apply Hall].
    + destruct Hin as [Heq|Hin]; [|right; now apply list_elem_of_further].
      rewrite Heq. destruct (Z.max_spec a b) as [[_ ->]|[_ ->]];
        [right; apply list_elem_of_here | now left].
Qed.

(** [py_max] of a list that is not empty is its greatest element. *)
Lemma py_max_greatest (l : list Z) :
  l <> [] ->
  (forall b, b ∈ l -> b <= py_max l) /\ py_max l ∈ l.
Proof.
  destruct l as [|a l]; [contradiction|]. intros _. simpl.
  destruct (foldl_max_bounds l a) as (Hge & Hall & Hin). split.
  - intros b Hb. apply elem_of_cons in Hb as [->|Hb]; [exact Hge | now apply Hall].
  - destruct Hin as [->|Hin];
      [apply list_elem_of_here | now apply list_elem_of_further].
Qed.

(** ** The content and the mouse handler of a FormattedTextControl *)

Section formatted_text_control.
Context `{TextUtils} `{MouseHandlers}.

(** [create_content] is one [get] of the content cache, under the key of
    the fragments, the width and the cursor position. *)
Lemma create_content_as_get rc self width height :
  let fragments :=
    fst (FormattedTextControl._get_formatted_text_cached rc self) in
  let fragment_lines := map (map strip_handler) (split_lines fragments) in
  let cursor :=
    match FormattedTextControl.get_cursor_position self with
    | Some f => f tt
    | None =>
        FormattedTextControl.scan_lines "[SetCursorPosition]" fragment_lines 0
    end in
  exists show_cursor,
    let get_content := fun _ : unit =>
      UIContent.__init__ (fun i => py_index fragment_lines i)
        (Z.of_nat (length fragment_lines)) cursor
        (FormattedTextControl.scan_lines "[SetMenuPosition]" fragment_lines 0)
        show_cursor in
    let got :=
      SimpleCache.get (fragments, width, cursor) get_content
        (FormattedTextControl._content_cache self) in
    fst (FormattedTextControl.create_content rc self width height) = fst got
    /\ FormattedTextControl._content_cache
         (snd (FormattedTextControl.create_content rc self width height))
       = snd got
    /\ FormattedTextControl._fragments
         (snd (FormattedTextControl.create_content rc self width height))
       = Some fragments.
Proof.
  intros fragments fragment_lines cursor.
  pose proof (_get_formatted_text_cached_frame rc self) as [Hcc Hgcp].
  unfold FormattedTextControl.create_content.
  unfold cursor, fragment_lines, fragments.
  destruct (FormattedTextControl._get_formatted_text_cached rc self)
    as [fs self1].
  cbn [fst snd] in *.
  cbn [FormattedTextControl.set_caches FormattedTextControl._content_cache
       FormattedTextControl.get_cursor_position
       FormattedTextControl.show_cursor FormattedTextControl._fragment_cache
       FormattedTextControl._fragments].
  rewrite Hcc, Hgcp.
  exists (FormattedTextControl.show_cursor self1). cbv zeta.
  destruct (SimpleCache.get _ _ _) as [content cache]. now repeat split.
Qed.

Lemma content_lines_kept rc self width height :
  Forall content_lines_ok
    (SimpleCache.data (FormattedTextControl._content_cache self)) ->
  let fragments :=
    fst (FormattedTextControl._get_formatted_text_cached rc self) in
  let fragment_lines := map (map strip_handler) (split_lines fragments) in
  let content :=
    fst (FormattedTextControl.create_content rc self width height) in
  let self' :=
    snd (FormattedTextControl.create_content rc self width height) in
  UIContent.line_count content = Z.of_nat (length fragment_lines)
  /\ (forall i, UIContent.get_line content i = py_index fragment_lines i)
  /\ Forall content_lines_ok
       (SimpleCache.data (FormattedTextControl._content_cache self'))
  /\ FormattedTextControl._fragments self' = Some fragments.
Proof.
  intros Hcache fragments fragment_lines content self'.
  destruct (create_content_as_get rc self width height)
    as (show & Hcontent & Hnew & Hfragments).
  cbv zeta in Hcontent, Hnew. fold fragments in Hcontent, Hnew, Hfragments.
  fold fragment_lines in Hcontent, Hnew.
  unfold content, self'. rewrite Hcontent, Hnew.
  match goal with
  | |- context [SimpleCache.get ?k ?g ?c] =>
      destruct (SimpleCache_get_Forall content_lines_ok k g c Hcache)
        as [[Hcount Hlines] Hkept]
  end.
  { split; reflexivity. }
  repeat split; assumption.
Qed.

(** X9. The content of a [FormattedTextControl] has one line for each
    line of the fragments, and indexes them as a Python list: an index
    from 0 to the line count gives the line, and no fragment of a line
    that it gives carries a mouse handler. This holds of a content from
    the cache as well, whose entries keep the property. *)
Theorem create_content_lines rc self width height :
  Forall content_lines_ok
    (SimpleCache.data (FormattedTextControl._content_cache self)) ->
  let fragments :=
    fst (FormattedTextControl._get_formatted_text_cached rc self) in
  let content :=
    fst (FormattedTextControl.create_content rc self width height) in
  let self' :=
    snd (FormattedTextControl.create_content rc self width height) in
  UIContent.line_count content = Z.of_nat (length (split_lines fragments))
  /\ (forall i, 0 <= i < UIContent.line_count content ->
        exists with_handlers,
          split_lines fragments !! Z.to_nat i = Some with_handlers
          /\ UIContent.__getitem__ content i
             = Ok (map strip_handler with_handlers))
  /\ (forall i line, UIContent.get_line content i = Ok line ->
        Forall (fun item => Fragment.handler item = None) line)
  /\ Forall content_lines_ok
       (SimpleCache.data (FormattedTextControl._content_cache self')).
Proof.
  intros Hcache fragments content self'.
  destruct (content_lines_kept rc self width height Hcache)
    as (Hcount & Hlines & Hkept & _).
  fold fragments content self' in Hcount, Hlines, Hkept.
  rewrite length_map in Hcount.
  split; [exact Hcount|]. split; [|split; [|exact Hkept]].
  - intros i Hi. unfold UIContent.__getitem__.
    destruct (i <? UIContent.line_count content) eqn:E;
      [|apply Z.ltb_ge in E; lia].
    rewrite Hlines.
    destruct (py_index_in_range
                (map (map strip_handler) (split_lines fragments)) i)
      as (line & Hindex & Hlook).
    { rewrite length_map. lia. }
    change (map (map strip_handler) (split_lines fragments))
      with (map strip_handler <$> split_lines fragments) in Hlook.
    rewrite list_lookup_fmap in Hlook.
    destruct (split_lines fragments !! Z.to_nat i) as [with_handlers|];
      [|discriminate].
    exists with_handlers. split; [reflexivity|].
    rewrite Hindex. now inversion Hlook.
  - intros i line Hline. rewrite Hlines in Hline.
    apply py_index_elem in Hline.
    change (map (map strip_handler) (split_lines fragments))
      with (map strip_handler <$> split_lines fragments) in Hline.
    apply list_elem_of_fmap in Hline as (with_handlers & -> & _).
    induction with_handlers; constructor; [reflexivity | assumption].
Qed.

(** X10. After [create_content], a mouse event on a row at or past the
    line count of the content is reported as not handled; and after
    [reset], every mouse event is. *)
Theorem mouse_handler_past_content rc self width height mouse_event :
  Forall content_lines_ok
    (SimpleCache.data (FormattedTextControl._content_cache self)) ->
  let content :=
    fst (FormattedTextControl.create_content rc self width height) in
  let self' :=
    snd (FormattedTextControl.create_content rc self width height) in
  (UIContent.line_count content <= y (position mouse_event) ->
   FormattedTextControl.mouse_handler self' mouse_event = Ok NotImplemented)
  /\ FormattedTextControl.mouse_handler (FormattedTextControl.reset self')
       mouse_event
     = Ok NotImplemented.
Proof.
  intros Hcache content self'.
  destruct (content_lines_kept rc self width height Hcache)
    as (Hcount & _ & _ & Hfragments).
  fold content self' in Hcount, Hfragments. rewrite length_map in Hcount.
  split; [|reflexivity].
  intros Hy. apply FormattedTextControl_mouse_handler_outside.
  right. right. eexists. split; [exact Hfragments | lia].
Qed.

Lemma find_handler_skip mouse_event xpos : forall before rest count,
  before = [] \/ count + text_length before < xpos ->
  FormattedTextControl.find_handler (before ++ rest) count xpos mouse_event
  = FormattedTextControl.find_handler rest (count + text_length before) xpos
      mouse_event.
Proof.
  induction before as [|b before IH]; intros rest count Hskip; simpl.
  - now rewrite Z.add_0_r.
  - destruct Hskip as [Hnil|Hlt]; [discriminate|]. simpl in Hlt.
    pose proof (text_length_nonneg before) as Hnn.
    destruct (count + len (Fragment.text b) >=? xpos) eqn:E.
    + rewrite Z.geb_leb in E. apply Z.leb_le in E. lia.
    + rewrite IH by (right; lia). f_equal. lia.
Qed.

(** X11. On a rendered row, the mouse handler looks at the first
    fragment whose text ends at or after column x, the end counted in
    characters from the start of the row: if that fragment carries a
    handler, the handler is called and its result is the result; if it
    carries none, the event is not handled. Past the end of the row's
    text, the event is not handled. *)
Theorem mouse_handler_dispatch self mouse_event fragments line :
  FormattedTextControl._fragments self = Some fragments ->
  fragments <> [] ->
  py_index (split_lines fragments) (y (position mouse_event)) = Ok line ->
  (forall before item after,
      line = before ++ item :: after ->
      before = [] \/ text_length before < x (position mouse_event) ->
      x (position mouse_event) <= text_length before + len (Fragment.text item) ->
      FormattedTextControl.mouse_handler self mouse_event
      = match Fragment.handler item with
        | Some h => call_handler h mouse_event
        | None => Ok NotImplemented
        end)
  /\ (line = [] \/ text_length line < x (position mouse_event) ->
      FormattedTextControl.mouse_handler self mouse_event = Ok NotImplemented).
Proof.
  intros Hfragments Hne Hline.
  assert (Hhandler : FormattedTextControl.mouse_handler self mouse_event
            = match FormattedTextControl.find_handler line 0
                      (x (position mouse_event)) mouse_event with
              | Some r => r
              | None => Ok NotImplemented
              end).
  { unfold FormattedTextControl.mouse_handler. rewrite Hfragments.
    destruct fragments as [|f fs]; [contradiction|]. now rewrite Hline. }
  split.
  - intros before item after -> Hbefore Hitem. rewrite Hhandler.
    rewrite find_handler_skip by (destruct Hbefore; [now left | right; lia]).
    simpl.
    destruct (0 + text_length before + len (Fragment.text item)
              >=? x (position mouse_event)) eqn:E.
    + now destruct (Fragment.handler item).
    + rewrite Z.geb_leb in E. apply Z.leb_gt in E. lia.
  - intros Hpast. rewrite Hhandler.
    rewrite <- (app_nil_r line).
    rewrite find_handler_skip by (destruct Hpast; [now left | right; lia]).
    reflexivity.
Qed.

(** X12. In a control whose fragment cache keeps an entry, the fragments
    are computed once in a render pass: a second call in the same pass
    returns the fragments of the first, also when the text or the style
    of the control was changed in between, and changes nothing. *)
Theorem fragments_once_per_render_pass rc self :
  (0 < SimpleCache.maxsize (FormattedTextControl._fragment_cache self))%nat ->
  let fragments :=
    fst (FormattedTextControl._get_formatted_text_cached rc self) in
  let self1 :=
    snd (FormattedTextControl._get_formatted_text_cached rc self) in
  forall self2,
    FormattedTextControl._fragment_cache self2
    = FormattedTextControl._fragment_cache self1 ->
    FormattedTextControl._get_formatted_text_cached rc self2
    = (fragments, self2).
Proof.
  intros Hmax fragments self1 self2 Hsame.
  pose proof (SimpleCache_get_find rc
                (fun _ => to_formatted_text (FormattedTextControl.text self)
                            (FormattedTextControl.style self))
                (FormattedTextControl._fragment_cache self) Hmax) as Hfind.
  assert (Hcache : FormattedTextControl._fragment_cache self1
                   = snd (SimpleCache.get rc
                       (fun _ => to_formatted_text
                                   (FormattedTextControl.text self)
                                   (FormattedTextControl.style self))
                       (FormattedTextControl._fragment_cache self))
                   /\ fragments
                      = fst (SimpleCache.get rc
                          (fun _ => to_formatted_text
                                      (FormattedTextControl.text self)
                                      (FormattedTextControl.style self))
                          (FormattedTextControl._fragment_cache self))).
  { unfold self1, fragments, FormattedTextControl._get_formatted_text_cached.
    destruct (SimpleCache.get _ _ _). now split. }
  destruct Hcache as [Hcache ->]. rewrite <- Hcache, <- Hsame in Hfind.
  unfold FormattedTextControl._get_formatted_text_cached.
  rewrite (SimpleCache_get_hit _ _ _ _ Hfind).
  destruct self2. reflexivity.
Qed.

(** X13. The preferred width of a [FormattedTextControl] is the width of
    the widest line of its text, the text cut at the newlines: no line is
    wider, and one line is that wide. The available width does not bound
    it. *)
Theorem preferred_width_widest_line rc self max_available_width :
  let fragments :=
    fst (FormattedTextControl._get_formatted_text_cached rc self) in
  let lines := str_split "" (fragment_list_to_text fragments) in
  let width :=
    fst (FormattedTextControl.preferred_width rc self max_available_width) in
  (forall line, line ∈ lines -> get_cwidth line <= width)
  /\ (exists line, line ∈ lines /\ width = get_cwidth line).
Proof.
  intros fragments lines width.
  assert (Hwidth : width = py_max (map get_cwidth lines)).
  { unfold width, lines, fragments, FormattedTextControl.preferred_width.
    now destruct (FormattedTextControl._get_formatted_text_cached rc self). }
  destruct (py_max_greatest (map get_cwidth lines)) as [Hall Hin].
  { unfold lines. intros Hnil. apply map_eq_nil in Hnil.
    now apply str_split_not_empty in Hnil. }
  rewrite Hwidth. split.
  - intros line Hline. apply Hall.
    change (map get_cwidth lines) with (get_cwidth <$> lines).
    now apply list_elem_of_fmap_2.
  - change (map get_cwidth lines) with (get_cwidth <$> lines) in Hin.
    apply list_elem_of_fmap in Hin as (line & Heq & Hline). now exists line.
Qed.

(** X14. The preferred height of a [FormattedTextControl] is the number
    of lines of its fragments, whatever the width, the available height
    and the wrapping. *)
Theorem preferred_height_counts_lines
    rc self width max_available_height wrap_lines get_line_prefix :
  Forall content_lines_ok
    (SimpleCache.data (FormattedTextControl._content_cache self)) ->
  fst (FormattedTextControl.preferred_height rc self width
         max_available_height wrap_lines get_line_prefix)
  = Z.of_nat (length (split_lines
      (fst (FormattedTextControl._get_formatted_text_cached rc self)))).
Proof.
  intros Hcache.
  destruct (content_lines_kept rc self width None Hcache) as (Hcount & _).
  rewrite length_map in Hcount. rewrite <- Hcount.
  unfold FormattedTextControl.preferred_height.
  now destruct (FormattedTextControl.create_content rc self width None).
Qed.

End formatted_text_control.

Section formatted_text_control_runs.
#[local] Existing Instance Reference.text_utils.
#[local] Existing Instance Reference.mouse_handlers.

Lemma create_content_lines_witness :
  let content :=
    fst (FormattedTextControl.create_content 7 Examples.two_lines 80 None) in
  UIContent.line_count content = 2
  /\ exists with_handlers,
       UIContent.__getitem__ content 1 = Ok (map strip_handler with_handlers).
Proof.
  intros content.
  destruct (create_content_lines 7 Examples.two_lines 80 None
              ltac:(constructor)) as (Hcount & Hitem & _).
  split; [exact Hcount|].
  destruct (Hitem 1 ltac:(vm_compute; split; discriminate || reflexivity))
    as (with_handlers & _ & Hline).
  now exists with_handlers.
Defined.

(** The content of [clickable] has one line; a release on row 1 is not
    handled. *)
Lemma mouse_handler_past_content_witness :
  FormattedTextControl.mouse_handler Examples.clickable_rendered
    (mkMouseEvent (mkPoint 3 1) MOUSE_UP)
  = Ok NotImplemented.
Proof.
  destruct (mouse_handler_past_content 7 Examples.clickable 80 None
              (mkMouseEvent (mkPoint 3 1) MOUSE_UP) ltac:(constructor))
    as [Hpast _].
  apply Hpast. vm_compute. discriminate.
Defined.

(** On "ab" followed by "cd" with handler 3: column 3 is in "cd" and the
    handler is called; at column 2, where "ab" ends, the fragment is "ab",
    which has no handler. *)
Lemma mouse_handler_dispatch_witness :
  FormattedTextControl.mouse_handler Examples.clickable_rendered
    (mkMouseEvent (mkPoint 3 0) MOUSE_UP)
  = Ok Handled
  /\ FormattedTextControl.mouse_handler Examples.clickable_rendered
       (mkMouseEvent (mkPoint 2 0) MOUSE_UP)
     = Ok NotImplemented.
Proof.
  split.
  - destruct (mouse_handler_dispatch Examples.clickable_rendered
                (mkMouseEvent (mkPoint 3 0) MOUSE_UP)
                [frag "" "ab"; Fragment.mk "" "cd" (Some 3%nat)]
                [frag "" "ab"; Fragment.mk "" "cd" (Some 3%nat)]
                ltac:(reflexivity) ltac:(discriminate) ltac:(reflexivity))
      as [Hfound _].
    apply (Hfound [frag "" "ab"] (Fragment.mk "" "cd" (Some 3%nat)) []);
      [reflexivity | right; reflexivity | vm_compute; discriminate].
  - destruct (mouse_handler_dispatch Examples.clickable_rendered
                (mkMouseEvent (mkPoint 2 0) MOUSE_UP)
                [frag "" "ab"; Fragment.mk "" "cd" (Some 3%nat)]
                [frag "" "ab"; Fragment.mk "" "cd" (Some 3%nat)]
                ltac:(reflexivity) ltac:(discriminate) ltac:(reflexivity))
      as [Hfound _].
    apply (Hfound [] (frag "" "ab") [Fragment.mk "" "cd" (Some 3%nat)]);
      [reflexivity | left; reflexivity | vm_compute; discriminate].
Defined.

(** After the fragments of "a", "b" were fetched in pass 7, a control
    with another text and the same cache still gets them in pass 7. *)
Lemma fragments_once_per_render_pass_witness :
  let self1 :=
    snd (FormattedTextControl._get_formatted_text_cached 7 Examples.two_lines) in
  let self2 :=
    FormattedTextControl.mk (PlainText "zzz") "" false true false None
      (FormattedTextControl._content_cache self1)
      (FormattedTextControl._fragment_cache self1) None in
  FormattedTextControl._get_formatted_text_cached 7 self2
  = ([frag "" "a
b"], self2).
Proof.
  intros self1 self2.
  assert (Hmax : (0 < SimpleCache.maxsize
                       (FormattedTextControl._fragment_cache Examples.two_lines))%nat)
    by (vm_compute; lia).
  exact (fragments_once_per_render_pass 7 Examples.two_lines Hmax self2 eq_refl).
Defined.

Lemma preferred_width_widest_line_witness :
  get_cwidth "abc" <=
  fst (FormattedTextControl.preferred_width 7 Examples.marked 1).
Proof.
  destruct (preferred_width_widest_line 7 Examples.marked 1) as [Hall _].
  apply Hall. vm_compute. apply list_elem_of_here.
Defined.

Lemma preferred_height_counts_lines_witness :
  fst (FormattedTextControl.preferred_height 7 Examples.two_lines 80 1 true None)
  = 2.
Proof.
  exact (preferred_height_counts_lines 7 Examples.two_lines 80 1 true None
           ltac:(constructor)).
Defined.

End formatted_text_control_runs.

(** ** Mouse events on a BufferControl *)

Section more_mouse.
Context `{DocumentOps}.

(** X15. A control that does not have the focus never touches its
    buffer: a release on a control that focuses on click gives it the
    focus and is handled; every other event is not handled and changes
    nothing. *)
Theorem mouse_handler_unfocused
    (layout : Layout) (time_check time_store : Q)
    (self : BufferControl.t) (mouse_event : MouseEvent) :
  current_control layout <> BufferControl.ident self ->
  (BufferControl.focus_on_click self = true ->
   event_type mouse_event = MOUSE_UP ->
   BufferControl.mouse_handler layout time_check time_store self mouse_event
   = (Handled, self,
      mkLayout (BufferControl.ident self)
               (search_target_buffer_control layout)))
  /\
  (BufferControl.focus_on_click self = false
   \/ event_type mouse_event <> MOUSE_UP ->
   BufferControl.mouse_handler layout time_check time_store self mouse_event
   = (NotImplemented, self, layout)).
Proof.
  intros Hfocus. unfold BufferControl.mouse_handler.
  destruct (current_control layout =? BufferControl.ident self)%nat eqn:E;
    [apply Nat.eqb_eq in E; contradiction|].
  split.
  - intros -> ->. reflexivity.
  - intros [-> | Hup]; [reflexivity|].
    destruct (BufferControl.focus_on_click self);
      destruct (event_type mouse_event); try reflexivity; contradiction.
Qed.

(** X16. A mouse event assigns to two things of the control only: the
    state of its buffer and the time of the last release. Whatever the
    event, the focus and the state, the control after the call is the
    control before it with some buffer state and some recorded time: the
    recorded processed-line function, the lexer cache, the lexer, the
    processors, the search control and the filters stay. The recorded
    time changes on no event but a release, and then to the time of that
    release. *)
Theorem mouse_handler_assigns
    (layout : Layout) (time_check time_store : Q)
    (self : BufferControl.t) (mouse_event : MouseEvent) :
  let self' :=
    snd (fst (BufferControl.mouse_handler layout time_check time_store self
                mouse_event)) in
  self'
  = BufferControl.set_last_click_timestamp
      (BufferControl.set_buffer self (BufferControl.buffer self'))
      (BufferControl._last_click_timestamp self')
  /\ (BufferControl._last_click_timestamp self'
      = BufferControl._last_click_timestamp self
      \/ event_type mouse_event = MOUSE_UP
         /\ BufferControl._last_click_timestamp self' = Some time_store).
Proof.
  unfold BufferControl.mouse_handler.
  destruct (current_control layout =? BufferControl.ident self)%nat.
  - destruct (BufferControl._last_get_processed_line self) as [gpl|];
      [|destruct self; split; [reflexivity | now left]].
    destruct (event_type mouse_event) eqn:Hevent; cbn [fst snd];
      try (destruct self; split; [reflexivity | now left]).
    split; [destruct self; reflexivity|]. right. split; reflexivity.
  - destruct (BufferControl.focus_on_click self);
      destruct (event_type mouse_event); cbn [fst snd];
      destruct self; (split; [reflexivity | now left]).
Qed.

(** X17. A scroll event changes neither the control nor the layout, and
    it is reported as not handled whenever the control lacks the focus or
    has recorded a processed-line function. *)
Theorem mouse_handler_scroll
    (layout : Layout) (time_check time_store : Q)
    (self : BufferControl.t) (mouse_event : MouseEvent) :
  event_type mouse_event = SCROLL_UP \/ event_type mouse_event = SCROLL_DOWN ->
  snd (fst (BufferControl.mouse_handler layout time_check time_store self
              mouse_event)) = self
  /\ snd (BufferControl.mouse_handler layout time_check time_store self
            mouse_event) = layout
  /\ (current_control layout <> BufferControl.ident self
      \/ BufferControl._last_get_processed_line self <> None ->
      fst (fst (BufferControl.mouse_handler layout time_check time_store self
                  mouse_event)) = NotImplemented).
Proof.
  intros Hscroll. unfold BufferControl.mouse_handler.
  destruct (current_control layout =? BufferControl.ident self)%nat eqn:E.
  - apply Nat.eqb_eq in E.
    destruct (BufferControl._last_get_processed_line self) as [gpl|].
    + destruct (event_type mouse_event);
        destruct Hscroll as [Het|Het]; try discriminate Het;
        now repeat split.
    + repeat split. intros [Hne|Hne]; contradiction.
  - destruct (BufferControl.focus_on_click self);
      destruct (event_type mouse_event);
      destruct Hscroll as [Het|Het]; try discriminate Het;
      now repeat split.
Qed.

(** X18. A click without movement: after a press, a release whose offset
    is at most 1 away from the cursor, and that is not a double click,
    starts no selection and leaves the cursor at the offset of the press;
    the time of the release is recorded. *)
Theorem mouse_click_sets_cursor
    (layout : Layout) (self : BufferControl.t) (gpl : Z -> _ProcessedLine)
    (press release : Point) (t1 t2 t3 t4 : Q) :
  current_control layout = BufferControl.ident self ->
  BufferControl._last_get_processed_line self = Some gpl ->
  let buffer := BufferControl.buffer self in
  let p := BufferControl.mouse_index gpl buffer press in
  let pressed :=
    Buffer.mk (Buffer.text buffer) p None (Buffer.complete_state buffer) in
  let self1 :=
    snd (fst (BufferControl.mouse_handler layout t1 t2 self
                (mkMouseEvent press MOUSE_DOWN))) in
  Z.abs (p - BufferControl.mouse_index gpl pressed release) <= 1 ->
  BufferControl.is_double_click (BufferControl._last_click_timestamp self) t3
  = false ->
  BufferControl.mouse_handler layout t3 t4 self1
    (mkMouseEvent release MOUSE_UP)
  = (Handled,
     BufferControl.set_last_click_timestamp
       (BufferControl.set_buffer self pressed) (Some t4),
     layout).
Proof.
  intros Hfocus Hgpl buffer p pressed self1 Hnear Hsingle.
  assert (Hself1 : self1 = BufferControl.set_buffer self pressed).
  { unfold self1, BufferControl.mouse_handler.
    now rewrite Hfocus, Nat.eqb_refl, Hgpl. }
  rewrite Hself1. unfold BufferControl.mouse_handler.
  replace (BufferControl.ident (BufferControl.set_buffer self pressed))
    with (BufferControl.ident self) by reflexivity.
  rewrite Hfocus, Nat.eqb_refl.
  replace (BufferControl._last_get_processed_line
             (BufferControl.set_buffer self pressed)) with (Some gpl)
    by (symmetry; exact Hgpl).
  cbn [event_type position BufferControl.buffer BufferControl.set_buffer
       BufferControl._last_click_timestamp].
  rewrite Hsingle.
  replace (Buffer.cursor_position pressed) with p by reflexivity.
  destruct (Z.abs _ >? 1) eqn:E; [apply Z.gtb_lt in E; lia|].
  reflexivity.
Qed.

End more_mouse.

Section more_mouse_runs.
#[local] Existing Instance Reference.document_ops.
#[local] Existing Instance Reference.pipeline.

(** A release on "foo bar" in a layout whose focus is elsewhere: nothing
    is handled, as the control does not focus on click. *)
Lemma mouse_handler_unfocused_witness :
  BufferControl.mouse_handler Examples.searching 100 100
    (Examples.rendered Examples.foo_bar) (Examples.release 3 0)
  = (NotImplemented, Examples.rendered Examples.foo_bar, Examples.searching).
Proof.
  destruct (mouse_handler_unfocused Examples.searching 100 100
              (Examples.rendered Examples.foo_bar) (Examples.release 3 0))
    as [_ Hnot]; [vm_compute; discriminate|].
  apply Hnot. left. reflexivity.
Defined.

Lemma mouse_handler_scroll_witness :
  fst (fst (BufferControl.mouse_handler Examples.focused 100 100
              (Examples.rendered Examples.foo_bar)
              (mkMouseEvent (mkPoint 0 0) SCROLL_DOWN)))
  = NotImplemented.
Proof.
  destruct (mouse_handler_scroll Examples.focused 100 100
              (Examples.rendered Examples.foo_bar)
              (mkMouseEvent (mkPoint 0 0) SCROLL_DOWN)
              ltac:(right; reflexivity)) as (_ & _ & Hresult).
  apply Hresult. right. discriminate.
Defined.

(** A click at column 2 of "foo bar" puts the cursor at offset 2 and
    selects nothing. *)
Lemma mouse_click_sets_cursor_witness :
  exists self2,
    BufferControl.mouse_handler Examples.focused 100 100
      (Examples.after (Examples.rendered Examples.foo_bar) 100
                      (Examples.press 2 0))
      (Examples.release 2 0)
    = (Handled, self2, Examples.focused)
    /\ BufferControl.buffer self2 = Buffer.mk "foo bar" 2 None None.
Proof.
  eexists. split.
  - apply (mouse_click_sets_cursor Examples.focused
             (Examples.rendered Examples.foo_bar)
             (Examples.recorded_lines (Examples.rendered Examples.foo_bar))
             (mkPoint 2 0) (mkPoint 2 0) 100 100 100 100);
      [reflexivity | reflexivity | vm_compute; discriminate | reflexivity].
  - reflexivity.
Defined.

End more_mouse_runs.

(** ** More on the content of a BufferControl *)

Section more_create_content.
Context `{DocumentOps} `{BufferControl.Pipeline}.

(** The menu position of the content, once the document is chosen. *)
Lemma create_content_of_menu layout self document width height :
  let gpl :=
    fst (BufferControl._create_get_processed_line_func self document
           width height) in
  let real := Buffer.document (BufferControl.buffer self) in
  let at_index := fun index : Z =>
    let '(row, col) := translate_index_to_position real index in
    Some (mkPoint (source_to_display (gpl row) col) row) in
  let answer :=
    match BufferControl.menu_position self with
    | Some f => f tt
    | None => None
    end in
  UIContent.menu_position
    (fst (BufferControl.create_content_of layout self document width height))
  = if (current_control layout =? BufferControl.ident self)%nat then
      match answer with
      | Some index => at_index index
      | None =>
          match Buffer.complete_state (BufferControl.buffer self) with
          | Some complete_state =>
              at_index
                (Z.min (Buffer.cursor_position (BufferControl.buffer self))
                       (Document.cursor_position
                          (original_document complete_state)))
          | None => None
          end
      end
    else None.
Proof.
  unfold BufferControl.create_content_of,
    BufferControl._create_get_processed_line_func,
    BufferControl._get_formatted_text_for_line_func.
  destruct (SimpleCache.get _ _ _) as [get_line cache]. cbn.
  destruct (current_control layout =? BufferControl.ident self)%nat;
    [|reflexivity].
  destruct (match BufferControl.menu_position self with
            | Some f => f tt | None => None end) as [menu|].
  - now destruct (translate_index_to_position _ menu).
  - destruct (Buffer.complete_state (BufferControl.buffer self)) as [cs|];
      [now destruct (translate_index_to_position _ _) | reflexivity].
Qed.

Lemma create_content_without_preview layout st self width height :
  BufferControl.preview_now layout self false = false ->
  BufferControl.create_content layout st self width height false
  = (Ok (fst (BufferControl.create_content_of layout self
                (Buffer.document (BufferControl.buffer self)) width height)),
     snd (BufferControl.create_content_of layout self
            (Buffer.document (BufferControl.buffer self)) width height),
     st).
Proof.
  intros Hno. unfold BufferControl.create_content. rewrite Hno.
  now destruct (BufferControl.create_content_of _ _ _ _ _).
Qed.

Lemma preview_now_false layout self :
  BufferControl.preview_search self = false
  \/ BufferControl.search_buffer_control self = None
  \/ (exists search_control,
        BufferControl.search_buffer_control self = Some search_control /\
        Buffer.text (SearchBufferControl.buffer search_control) = "")
  \/ search_target_buffer_control layout <> BufferControl.ident self ->
  BufferControl.preview_now layout self false = false.
Proof.
  unfold BufferControl.preview_now. simpl.
  intros [-> | [-> | [(c & -> & ->) | Hother]]];
    [reflexivity | apply andb_false_r | apply andb_false_r |].
  destruct (BufferControl.preview_search self); [|reflexivity].
  destruct (BufferControl.search_buffer_control self) as [c|]; [|reflexivity].
  destruct (search_target_buffer_control layout =? BufferControl.ident self)%nat
    eqn:E; [apply Nat.eqb_eq in E; contradiction|].
  simpl. apply andb_false_r.
Qed.

(** X19. When preview is off, or no search control is attached, or the
    search field is empty, or another control is the one being searched,
    [create_content] renders the buffer's own document: the content has
    its line count and its cursor, taken through [source_to_display] of
    the cursor's row; the buffer and the store stay as they are, and the
    control records the processed-line function. *)
Theorem create_content_own_document layout st self width height :
  BufferControl.preview_search self = false
  \/ BufferControl.search_buffer_control self = None
  \/ (exists search_control,
        BufferControl.search_buffer_control self = Some search_control /\
        Buffer.text (SearchBufferControl.buffer search_control) = "")
  \/ search_target_buffer_control layout <> BufferControl.ident self ->
  let document := Buffer.document (BufferControl.buffer self) in
  let gpl :=
    fst (BufferControl._create_get_processed_line_func self document
           width height) in
  exists content self',
    BufferControl.create_content layout st self width height false
    = (Ok content, self', st)
    /\ BufferControl.buffer self' = BufferControl.buffer self
    /\ BufferControl._last_get_processed_line self' = Some gpl
    /\ UIContent.line_count content = line_count document
    /\ UIContent.cursor_position content
       = mkPoint (source_to_display (gpl (cursor_position_row document))
                                    (cursor_position_col document))
                 (cursor_position_row document).
Proof.
  intros Hno document gpl. apply (preview_now_false layout self) in Hno.
  rewrite (create_content_without_preview layout st self width height Hno).
  pose proof (create_content_of_spec layout self document width height)
    as (Hbuf & Hgpl & Hcount & Hcursor & _).
  eexists _, _. split; [reflexivity|]. now repeat split.
Qed.

(** X20. [create_content] called with [preview_search=True] on a control
    without search control raises [AttributeError]: the search state is
    read first, which creates a default state in the store, and the text
    of the absent search control is read next. The control is not
    changed. *)
Theorem create_content_preview_without_search_control
    layout st self width height :
  BufferControl.search_buffer_control self = None ->
  exists r,
    st !! r = None
    /\ BufferControl.create_content layout st self width height true
       = (Raise AttributeError, self, <[r := SearchState.__init__]> st).
Proof.
  intros Hnone. exists (fresh (dom st)). split.
  - apply (not_elem_of_dom (D := gset nat)), is_fresh.
  - unfold BufferControl.create_content, BufferControl.preview_now,
      BufferControl.search_state, new_object.
    now rewrite Hnone.
Qed.

(** X21. The menu position of the content, when the buffer's own
    document is rendered: absent when the control lacks the focus; with
    the focus, the position of the offset that the control's
    [menu_position] function returns, whatever the completion state;
    when that function is absent or returns None, the position of the
    smaller of the cursor offset and the cursor offset of the document
    before the completion, and absent without completion state. *)
Theorem create_content_menu_position layout st self width height :
  BufferControl.preview_now layout self false = false ->
  let real := Buffer.document (BufferControl.buffer self) in
  let gpl :=
    fst (BufferControl._create_get_processed_line_func self real
           width height) in
  let at_index := fun index : Z =>
    Some (mkPoint
            (source_to_display
               (gpl (fst (translate_index_to_position real index)))
               (snd (translate_index_to_position real index)))
            (fst (translate_index_to_position real index))) in
  let answer :=
    match BufferControl.menu_position self with
    | Some f => f tt
    | None => None
    end in
  exists content self',
    BufferControl.create_content layout st self width height false
    = (Ok content, self', st)
    /\ (current_control layout <> BufferControl.ident self ->
        UIContent.menu_position content = None)
    /\ (current_control layout = BufferControl.ident self ->
        (forall index, answer = Some index ->
           UIContent.menu_position content = at_index index)
        /\ (forall complete_state,
              answer = None ->
              Buffer.complete_state (BufferControl.buffer self)
              = Some complete_state ->
              UIContent.menu_position content
              = at_index
                  (Z.min (Buffer.cursor_position (BufferControl.buffer self))
                         (Document.cursor_position
                            (original_document complete_state))))
        /\ (answer = None ->
            Buffer.complete_state (BufferControl.buffer self) = None ->
            UIContent.menu_position content = None)).
Proof.
  intros Hno real gpl at_index answer.
  rewrite (create_content_without_preview layout st self width height Hno).
  exists (fst (BufferControl.create_content_of layout self real width height)),
         (snd (BufferControl.create_content_of layout self real width height)).
  split; [reflexivity|].
  rewrite (create_content_of_menu layout self real width height).
  fold real gpl answer. split.
  - intros Hne.
    destruct (current_control layout =? BufferControl.ident self)%nat eqn:E;
      [apply Nat.eqb_eq in E; contradiction | reflexivity].
  - intros ->. rewrite Nat.eqb_refl. unfold at_index. repeat split.
    + intros index ->. now destruct (translate_index_to_position real index).
    + intros cs -> ->. now destruct (translate_index_to_position real _).
    + now intros -> ->.
Qed.

(** X22. Clicking where the cursor is drawn leaves the cursor where it
    is: when the rendered line of the cursor maps the cursor's display
    column back to its source column, and row and column of the cursor
    convert back to the cursor offset, a press at the cursor position of
    the content that was just created sets the cursor to the offset it
    has, and clears the selection. *)
Theorem press_at_cursor_position layout st self width height time_check time_store :
  BufferControl.preview_now layout self false = false ->
  current_control layout = BufferControl.ident self ->
  let document := Buffer.document (BufferControl.buffer self) in
  let gpl :=
    fst (BufferControl._create_get_processed_line_func self document
           width height) in
  let row := cursor_position_row document in
  let col := cursor_position_col document in
  display_to_source (gpl row) (source_to_display (gpl row) col) = col ->
  translate_row_col_to_index document row col
  = Buffer.cursor_position (BufferControl.buffer self) ->
  exists content self',
    BufferControl.create_content layout st self width height false
    = (Ok content, self', st)
    /\ Buffer.cursor_position
         (BufferControl.buffer
            (snd (fst (BufferControl.mouse_handler layout time_check
                         time_store self'
                         (mkMouseEvent (UIContent.cursor_position content)
                                       MOUSE_DOWN)))))
       = Buffer.cursor_position (BufferControl.buffer self)
    /\ Buffer.selection_state
         (BufferControl.buffer
            (snd (fst (BufferControl.mouse_handler layout time_check
                         time_store self'
                         (mkMouseEvent (UIContent.cursor_position content)
                                       MOUSE_DOWN)))))
       = None.
Proof.
  intros Hno Hfocus document gpl row col Hback Hindex.
  rewrite (create_content_without_preview layout st self width height Hno).
  pose proof (create_content_of_spec layout self document width height)
    as (Hbuf & Hgpl & _ & Hcursor & _).
  fold document in Hbuf, Hgpl, Hcursor. fold gpl in Hgpl, Hcursor.
  fold row col in Hcursor.
  set (content := fst (BufferControl.create_content_of layout self document
                         width height)) in *.
  set (self' := snd (BufferControl.create_content_of layout self document
                       width height)) in *.
  exists content, self'. split; [reflexivity|].
  assert (Hident : BufferControl.ident self' = BufferControl.ident self).
  { unfold self', BufferControl.create_content_of,
      BufferControl._create_get_processed_line_func,
      BufferControl._get_formatted_text_for_line_func.
    now destruct (SimpleCache.get _ _ _). }
  unfold BufferControl.mouse_handler.
  rewrite Hident, Hfocus, Nat.eqb_refl, Hgpl.
  cbn [event_type position snd fst BufferControl.buffer
       BufferControl.set_buffer Buffer.cursor_position
       Buffer.selection_state Buffer.set_cursor_position
       Buffer.exit_selection].
  split; [|reflexivity].
  unfold BufferControl.mouse_index.
  rewrite Hcursor. cbn [x y]. rewrite Hback, Hbuf. exact Hindex.
Qed.

End more_create_content.

Section content_height.
Context `{TextUtils} `{DocumentOps} `{BufferControl.Pipeline}.

Lemma sum_line_heights_bound fuel rc width max_available_height prefix :
  forall n content i height h,
    height <= max_available_height ->
    BufferControl.sum_line_heights fuel n rc content i width height
      max_available_height prefix = Some (Ok h) ->
    h <= max_available_height.
Proof.
  induction n as [|n IH]; intros content i height h Hheight Hsum;
    simpl in Hsum.
  - inversion Hsum; subst. exact Hheight.
  - destruct (UIContent.get_height_for_line fuel rc content i width prefix)
      as [[[h0|e] content']|]; try discriminate.
    destruct (height + h0 >=? max_available_height) eqn:E.
    + inversion Hsum; subst. lia.
    + rewrite Z.geb_leb in E. apply Z.leb_gt in E.
      eapply IH; [|exact Hsum]. lia.
Qed.

(** X23. The preferred height of a [BufferControl]: without line
    wrapping it is the line count of the content, which the available
    height does not bound; with line wrapping and an available height
    that is not negative, a height that is returned is never above the
    available height, and it is the available height as soon as the line
    count reaches it. *)
Theorem BufferControl_preferred_height_bound
    fuel rc layout st self width max_available_height get_line_prefix :
  BufferControl.preview_now layout self false = false ->
  let document := Buffer.document (BufferControl.buffer self) in
  let self' :=
    snd (BufferControl.create_content_of layout self document width None) in
  BufferControl.preferred_height fuel rc layout st self width
    max_available_height false get_line_prefix
  = Some (Ok (line_count document), self', st)
  /\ (line_count document >= max_available_height ->
      BufferControl.preferred_height fuel rc layout st self width
        max_available_height true get_line_prefix
      = Some (Ok max_available_height, self', st))
  /\ (0 <= max_available_height ->
      forall h self2 st2,
        BufferControl.preferred_height fuel rc layout st self width
          max_available_height true get_line_prefix
        = Some (Ok h, self2, st2) ->
        h <= max_available_height).
Proof.
  intros Hno document self'.
  pose proof (create_content_of_spec layout self document width None)
    as (_ & _ & Hcount & _).
  unfold BufferControl.preferred_height.
  rewrite (create_content_without_preview layout st self width None Hno).
  fold document self'. cbn [negb]. rewrite Hcount.
  split; [reflexivity|]. split.
  - intros Hmany.
    destruct (line_count document >=? max_available_height) eqn:E;
      [reflexivity | rewrite Z.geb_leb in E; apply Z.leb_gt in E; lia].
  - intros Hmax h self2 st2 Hcall.
    destruct (line_count document >=? max_available_height).
    + inversion Hcall; subst. lia.
    + destruct (BufferControl.sum_line_heights _ _ _ _ _ _ _ _ _)
        as [r|] eqn:Hsum; [|discriminate].
      inversion Hcall; subst.
      eapply sum_line_heights_bound; [|exact Hsum]. exact Hmax.
Qed.

End content_height.

Section more_create_content_runs.
#[local] Existing Instance Reference.text_utils.
#[local] Existing Instance Reference.document_ops.
#[local] Existing Instance Reference.pipeline.

(** The control that previews the search for "ba", while another control
    is the one being searched: the cursor is drawn at offset 0. *)
Lemma create_content_own_document_witness :
  exists content self',
    BufferControl.create_content Examples.focused Examples.search_store
      Examples.foo_bar_searched 80 None false
    = (Ok content, self', Examples.search_store)
    /\ UIContent.cursor_position content = mkPoint 0 0.
Proof.
  destruct (create_content_own_document Examples.focused Examples.search_store
              Examples.foo_bar_searched 80 None)
    as (content & self' & Hcreate & _ & _ & _ & Hcursor).
  { right. right. right. vm_compute. discriminate. }
  exists content, self'. split; [exact Hcreate|].
  rewrite Hcursor. reflexivity.
Defined.

Lemma create_content_preview_without_search_control_witness :
  exists st',
    BufferControl.create_content Examples.focused ∅ Examples.foo_bar
      80 None true
    = (Raise AttributeError, Examples.foo_bar, st').
Proof.
  destruct (create_content_preview_without_search_control Examples.focused ∅
              Examples.foo_bar 80 None ltac:(reflexivity))
    as (r & _ & Hraise).
  eexists. exact Hraise.
Defined.

(** A focused control whose [menu_position] function returns offset 4,
    on a buffer with a completion that started at offset 2: the menu is
    at column 4. *)
Lemma create_content_menu_position_witness :
  let self :=
    BufferControl.__init__ 1
      (Some (Buffer.mk "foo bar" 6 None
               (Some (mkCompletionState (Document.mk "foo bar" 2 None)))))
      None true None false true None (Some (fun _ => Some 4)) false in
  exists content self',
    BufferControl.create_content Examples.focused ∅ self 80 None false
    = (Ok content, self', ∅)
    /\ UIContent.menu_position content = Some (mkPoint 4 0).
Proof.
  intros self.
  destruct (create_content_menu_position Examples.focused ∅ self 80 None
              ltac:(reflexivity))
    as (content & self' & Hcreate & _ & Hfocused).
  exists content, self'. split; [exact Hcreate|].
  destruct (Hfocused ltac:(reflexivity)) as [Hanswer _].
  rewrite (Hanswer 4 ltac:(reflexivity)). reflexivity.
Defined.

(** "foo bar" with the cursor at offset 3: a press where the cursor is
    drawn leaves it at offset 3. *)
Lemma press_at_cursor_position_witness :
  let self :=
    BufferControl.__init__ 1 (Some (Buffer.mk "foo bar" 3 None None))
      None true None false true None None false in
  exists content self',
    BufferControl.create_content Examples.focused ∅ self 80 None false
    = (Ok content, self', ∅)
    /\ Buffer.cursor_position
         (BufferControl.buffer
            (snd (fst (BufferControl.mouse_handler Examples.focused 100 100
                         self'
                         (mkMouseEvent (UIContent.cursor_position content)
                                       MOUSE_DOWN)))))
       = 3.
Proof.
  intros self.
  destruct (press_at_cursor_position Examples.focused ∅ self 80 None 100 100
              ltac:(reflexivity) ltac:(reflexivity) ltac:(reflexivity)
              ltac:(reflexivity))
    as (content & self' & Hcreate & Hcursor & _).
  exists content, self'. split; [exact Hcreate | exact Hcursor].
Defined.

(** "foo bar" has one line: its preferred height is 1 without wrapping,
    and with wrapping and an available height of 5 it is 1 as well,
    which is not above 5. *)
Lemma BufferControl_preferred_height_bound_witness :
  exists self2 st2,
    BufferControl.preferred_height 3 7 Examples.focused ∅
      Examples.foo_bar 80 5 false None
    = Some (Ok 1, self2, st2)
    /\ BufferControl.preferred_height 3 7 Examples.focused ∅
         Examples.foo_bar 80 5 true None
       = Some (Ok 1, self2, st2)
    /\ 1 <= 5.
Proof.
  destruct (BufferControl_preferred_height_bound 3 7 Examples.focused ∅
              Examples.foo_bar 80 5 None ltac:(reflexivity))
    as (Hplain & _ & Hbound).
  eexists _, _. split; [exact Hplain|].
  assert (Hwrap : BufferControl.preferred_height 3 7 Examples.focused ∅
                    Examples.foo_bar 80 5 true None
                  = Some (Ok 1,
                          snd (BufferControl.create_content_of Examples.focused
                                 Examples.foo_bar
                                 (Buffer.document
                                    (BufferControl.buffer Examples.foo_bar))
                                 80 None),
                          ∅)) by reflexivity.
  split; [exact Hwrap|].
  exact (Hbound ltac:(lia) _ _ _ Hwrap).
Defined.

End more_create_content_runs.

(** ** The lexer cache *)

Section lexer_cache.
Context `{DocumentOps} `{BufferControl.Pipeline}.

(** X24. In a control whose lexer cache keeps an entry, a document is
    lexed once for a text: after the lines of a document were fetched,
    fetching the lines of a document with the same text, such as the same
    text with the cursor elsewhere, returns the function that was stored
    for the first document and changes nothing. *)
Theorem lexed_once_per_text self document1 document2 :
  (0 < SimpleCache.maxsize (BufferControl._fragment_cache self))%nat ->
  Document.text document2 = Document.text document1 ->
  let get_line :=
    fst (BufferControl._get_formatted_text_for_line_func self document1) in
  let self1 :=
    snd (BufferControl._get_formatted_text_for_line_func self document1) in
  BufferControl._get_formatted_text_for_line_func self1 document2
  = (get_line, self1).
Proof.
  intros Hmax Htext get_line self1.
  pose proof (SimpleCache_get_find
                (Document.text document1,
                 BufferControl.invalidation_hash (BufferControl.lexer self))
                (fun _ => BufferControl.lex_document (BufferControl.lexer self)
                            document1)
                (BufferControl._fragment_cache self) Hmax) as Hfind.
  unfold get_line, self1, BufferControl._get_formatted_text_for_line_func
    in *.
  destruct (SimpleCache.get _ _ (BufferControl._fragment_cache self))
    as [f cache].
  cbn [fst snd BufferControl.set_fragment_cache BufferControl.lexer
       BufferControl._fragment_cache] in *.
  rewrite Htext.
  rewrite (SimpleCache_get_hit _ _ _ _ Hfind). reflexivity.
Qed.

End lexer_cache.

Section lexer_cache_runs.
#[local] Existing Instance Reference.document_ops.
#[local] Existing Instance Reference.pipeline.

(** "foo bar" lexed with the cursor at 0, then fetched with the cursor
    at 5. *)
Lemma lexed_once_per_text_witness :
  let self1 :=
    snd (BufferControl._get_formatted_text_for_line_func Examples.foo_bar
           (Document.mk "foo bar" 0 None)) in
  fst (BufferControl._get_formatted_text_for_line_func self1
         (Document.mk "foo bar" 5 None)) 0
  = [frag "" "foo bar"].
Proof.
  intros self1.
  assert (Hmax : (0 < SimpleCache.maxsize
                       (BufferControl._fragment_cache Examples.foo_bar))%nat)
    by (vm_compute; lia).
  pose proof (lexed_once_per_text Examples.foo_bar
                (Document.mk "foo bar" 0 None) (Document.mk "foo bar" 5 None)
                Hmax eq_refl) as Honce.
  cbv zeta in Honce. fold self1 in Honce. rewrite Honce. reflexivity.
Defined.

End lexer_cache_runs.
